(** * system_info.py: a shallow embedding and its specification

    The script gathers a snapshot of the host (CPU, memory, filesystems,
    I/O throughput), prints it and writes it to a JSON file.  Every
    function of [src/system_info.py] is embedded below as a function of a
    [Host] (the answers of the operating system) and, where the code
    touches files, the clock or standard output, of a [World] that is
    threaded through a small state-and-exception monad.

    Conventions of the embedding:
    - Python [str] is [string]; the characters are the 256 code points
      of [ascii].
    - Python [int] is [Z].  Python [float] is idealised as an exact
      rational [Q]: the only float operations of the script are
      subtraction, division and [round], and division by zero raises
      [ZeroDivisionError] as in Python.
    - A Python [dict] is an association list in insertion order, the
      order in which [items()] and [json.dump] enumerate it.
    - The exceptions are the subclasses of [Exception]: what the host
      answers to a call.  Signals that interrupt the script are outside
      the model. *)

From Stdlib Require Import ZArith QArith Qround Ascii.
From stdpp Require Import gmap strings list.

Local Open Scope Z_scope.

(** ** Python strings *)

Module Str.

(** [str.isspace] on one code point below 256: tab, line feed, vertical
    tab, form feed, carriage return, the four separators 0x1c-0x1f, the
    space, the next-line control 0x85 and the no-break space 0xa0. *)
Definition is_space (c : ascii) : bool :=
  let n := nat_of_ascii c in
  ((9 <=? n)%nat && (n <=? 13)%nat) || ((28 <=? n)%nat && (n <=? 32)%nat)
  || (n =? 133)%nat || (n =? 160)%nat.

Definition is_empty (s : string) : bool :=
  match s with EmptyString => true | String _ _ => false end.

Fixpoint lstrip (s : string) : string :=
  match s with
  | EmptyString => EmptyString
  | String c r => if is_space c then lstrip r else s
  end.

Fixpoint rstrip (s : string) : string :=
  match s with
  | EmptyString => EmptyString
  | String c r =>
      let r' := rstrip r in
      if is_space c && is_empty r' then EmptyString else String c r'
  end.

(** [s.strip()] *)
Definition strip (s : string) : string := rstrip (lstrip s).

Definition snoc (s : string) (c : ascii) : string := s +:+ String c EmptyString.

(** [s.split()]: the maximal runs of characters that are not white
    space; [tok] is the run being read. *)
Fixpoint split_ws_from (tok : string) (s : string) : list string :=
  match s with
  | EmptyString => if is_empty tok then [] else [tok]
  | String c r =>
      if is_space c
      then (if is_empty tok then split_ws_from "" r else tok :: split_ws_from "" r)
      else split_ws_from (snoc tok c) r
  end.

Definition split_ws (s : string) : list string := split_ws_from "" s.

(** [s.split(sep)] for a separator of one character: one field more
    than there are separators, so never the empty list. *)
Fixpoint split_from (sep : ascii) (tok : string) (s : string) : list string :=
  match s with
  | EmptyString => [tok]
  | String c r =>
      if Ascii.eqb c sep then tok :: split_from sep "" r
      else split_from sep (snoc tok c) r
  end.

Definition split (sep : ascii) (s : string) : list string := split_from sep "" s.

(** [s.startswith(p)] *)
Definition startswith (s p : string) : bool := String.prefix p s.

(** [sub in s] *)
Fixpoint contains (sub s : string) : bool :=
  String.prefix sub s ||
  match s with
  | EmptyString => false
  | String _ r => contains sub r
  end.

(** The lower case of one code point below 256: the letters A-Z and the
    accented capitals 0xc0-0xde (0xd7 is the multiplication sign). *)
Definition lower_char (c : ascii) : ascii :=
  let n := nat_of_ascii c in
  if (65 <=? n)%nat && (n <=? 90)%nat
     || (192 <=? n)%nat && (n <=? 222)%nat && negb (n =? 215)%nat
  then ascii_of_nat (n + 32) else c.

(** [s.lower()] *)
Fixpoint lower (s : string) : string :=
  match s with
  | EmptyString => EmptyString
  | String c r => String (lower_char c) (lower r)
  end.

(** [x in l] for a list of strings *)
Definition mem (x : string) (l : list string) : bool :=
  existsb (String.eqb x) l.

(** [s * n] *)
Fixpoint times (s : string) (n : nat) : string :=
  match n with
  | O => EmptyString
  | S n' => s +:+ times s n'
  end.

Definition digit_of (c : ascii) : option Z :=
  let n := nat_of_ascii c in
  if (48 <=? n)%nat && (n <=? 57)%nat then Some (Z.of_nat n - 48) else None.

(** The digits of an integer literal: decimal digits, with single
    underscores allowed between two digits. [after_digit] says that
    the previous character was a digit. *)
Fixpoint digits_from (acc : Z) (after_digit : bool) (s : string) : option Z :=
  match s with
  | EmptyString => if after_digit then Some acc else None
  | String c r =>
      if Ascii.eqb c "_"
      then (if after_digit then digits_from acc false r else None)
      else match digit_of c with
           | Some d => digits_from (10 * acc + d) true r
           | None => None
           end
  end.

(** The value of [int(s)], [None] where Python raises [ValueError]:
    surrounding white space is dropped and a sign may precede the
    digits. *)
Definition parse_int (s : string) : option Z :=
  match strip s with
  | String "+" r => digits_from 0 false r
  | String "-" r => Z.opp <$> digits_from 0 false r
  | t => digits_from 0 false t
  end.

End Str.

(** ** Exceptions and results *)

Inductive exn_class :=
  | ImportError | ModuleNotFoundError
  | OSError | FileNotFoundError | PermissionError
  | MemoryError | RuntimeError | UnicodeDecodeError
  | ValueError | IndexError | AttributeError | ZeroDivisionError.

(** An exception object: its class and [str(e)]. *)
Record exn := Exn { exn_class_of : exn_class; exn_msg : string }.

(** [except ImportError] also catches the subclass [ModuleNotFoundError]. *)
Definition is_ImportError (e : exn) : bool :=
  match exn_class_of e with
  | ImportError | ModuleNotFoundError => true
  | _ => false
  end.

(** [except Exception] *)
Definition is_Exception (e : exn) : bool := true.

Inductive result (A : Type) :=
  | Ok (a : A)
  | Raise (e : exn).
Arguments Ok {A} a.
Arguments Raise {A} e.

Definition is_ok {A} (r : result A) : bool :=
  match r with Ok _ => true | Raise _ => false end.

(** ** The monad: a state that survives exceptions

    [M S A] is a computation over a mutable state [S] that returns an [A]
    or raises.  The state is returned in both cases: what a [try] block
    did to a dictionary or to the disk before it raised is still there
    in the handler. *)

Definition M (S A : Type) : Type := S -> result A * S.

Definition ret {S A} (a : A) : M S A := fun s => (Ok a, s).

Definition raise {S A} (e : exn) : M S A := fun s => (Raise e, s).

Definition bind {S A B} (m : M S A) (k : A -> M S B) : M S B :=
  fun s =>
    match m s with
    | (Ok a, s') => k a s'
    | (Raise e, s') => (Raise e, s')
    end.

Declare Scope py_scope.
Delimit Scope py_scope with py.
Notation "x <- m ;; k" := (bind m (fun x => k))
  (at level 20, m at level 99, k at level 200, only parsing) : py_scope.
Notation "m ;; k" := (bind m (fun _ => k))
  (at level 100, k at level 200, only parsing, right associativity) : py_scope.
Local Open Scope py_scope.

(** A pure computation that may raise. *)
Definition lift {S A} (r : result A) : M S A := fun s => (r, s).

Definition modify {S} (f : S -> S) : M S unit := fun s => (Ok tt, f s).

(** [try: body except C as e: handler e], where [catches] decides
    [isinstance(e, C)]. *)
Definition try_except {S A} (body : M S A) (catches : exn -> bool)
    (handler : exn -> M S A) : M S A :=
  fun s =>
    match body s with
    | (Ok a, s') => (Ok a, s')
    | (Raise e, s') => if catches e then handler e s' else (Raise e, s')
    end.

(** [for x in l: f x] *)
Fixpoint for_each {S A} (l : list A) (f : A -> M S unit) : M S unit :=
  match l with
  | [] => ret tt
  | x :: r => f x ;; for_each r f
  end.

(** A component of a pair of states. *)
Definition on_fst {S T A} (m : M S A) : M (S * T) A :=
  fun st => let (r, s') := m st.1 in (r, (s', st.2)).

Definition on_snd {S T A} (m : M T A) : M (S * T) A :=
  fun st => let (r, t') := m st.2 in (r, (st.1, t')).

(** ** Python values and dictionaries *)

#[warnings="-register-all"]
Inductive pyval :=
  | VNone
  | VInt (z : Z)
  | VFloat (q : Q)
  | VStr (s : string)
  | VDict (d : list (string * pyval)).

Abbreviation dict := (list (string * pyval)).

Fixpoint dict_get {V} (k : string) (d : list (string * V)) : option V :=
  match d with
  | [] => None
  | (k', v) :: r => if String.eqb k' k then Some v else dict_get k r
  end.

(** [d[k] = v]: an existing key keeps its position, a new one goes last. *)
Fixpoint dict_set {V} (k : string) (v : V) (d : list (string * V)) : list (string * V) :=
  match d with
  | [] => [(k, v)]
  | (k', v') :: r => if String.eqb k' k then (k', v) :: r else (k', v') :: dict_set k v r
  end.

Definition dict_keys {V} (d : list (string * V)) : list string := d.*1.

Definition dict_has {V} (k : string) (d : list (string * V)) : bool :=
  match dict_get k d with Some _ => true | None => false end.

(** [info[k] = v] on the dictionary held in the state. *)
Definition setitem {V} (k : string) (v : V) : M (list (string * V)) unit :=
  modify (dict_set k v).

(** Run a body over the local dictionary [info] and return it. *)
Definition returning {V} (info : list (string * V)) (body : M (list (string * V)) unit)
    : result (list (string * V)) :=
  match body info with
  | (Ok _, info') => Ok info'
  | (Raise e, _) => Raise e
  end.

(** [l[i]] *)
Definition index {S A} (l : list A) (i : nat) : M S A :=
  match l !! i with
  | Some x => ret x
  | None => raise (Exn IndexError "list index out of range")
  end.

(** [l[-1]] *)
Definition index_last {S A} (l : list A) : M S A :=
  match last l with
  | Some x => ret x
  | None => raise (Exn IndexError "list index out of range")
  end.

(** The exception of [int(s)]; the message shows [s] between quotes, as
    [repr] does for a string without quotes, backslashes or control
    characters. *)
Definition invalid_literal (s : string) : exn :=
  Exn ValueError ("invalid literal for int() with base 10: '" +:+ s +:+ "'").

(** [int(s)] *)
Definition py_int {S} (s : string) : M S Z :=
  match Str.parse_int s with
  | Some z => ret z
  | None => raise (invalid_literal s)
  end.

(** [a / b] on floats *)
Definition py_div {S} (a b : Q) : M S Q :=
  if Qeq_bool b 0 then raise (Exn ZeroDivisionError "float division by zero")
  else ret (a / b)%Q.

(** The integer nearest to [x], ties going to the even one. *)
Definition round_half_even (x : Q) : Z :=
  let f := Qfloor x in
  match (x - inject_Z f ?= 1 # 2)%Q with
  | Lt => f
  | Gt => f + 1
  | Eq => if Z.even f then f else f + 1
  end.

(** [round(x, ndigits)] *)
Definition py_round (x : Q) (ndigits : nat) : Q :=
  let p := inject_Z (10 ^ Z.of_nat ndigits) in
  Qred (inject_Z (round_half_even (x * p)) / p).

(** [if o: k o] for a value that is [None] or a string: both [None] and
    the empty string are false. *)
Definition if_truthy {S} (o : option string) (k : string -> M S unit) : M S unit :=
  match o with
  | Some s => if Str.is_empty s then ret tt else k s
  | None => ret tt
  end.

Definition truthy (o : option string) : bool :=
  match o with
  | Some s => negb (Str.is_empty s)
  | None => false
  end.

(** ** The host

    What the operating system and the Python runtime answer.  The script
    has no input of its own: a [Host] is its whole input. *)

(** [subprocess.CompletedProcess] *)
Record CompletedProcess := { returncode : Z; stdout : string }.

(** [psutil.virtual_memory()] *)
Record svmem := { vm_total : Z; vm_available : Z; vm_percent : Q }.

(** [os.statvfs_result], with the attributes that Python gives it. *)
Record statvfs_result := {
  f_bsize : Z; f_frsize : Z; f_blocks : Z; f_bfree : Z; f_bavail : Z;
  f_files : Z; f_ffree : Z; f_favail : Z; f_flag : Z; f_namemax : Z; f_fsid : Z
}.

(** [datetime.now()], by the two renderings the script asks for:
    [isoformat()] and [strftime('%Y%m%d_%H%M%S')]. *)
Record datetime := { isoformat : string; strftime_ymd_hms : string }.

(** A path given to [os.path.exists] and [os.statvfs]: a [str] or a
    [pathlib.Path]. *)
Inductive pathlike :=
  | PStr (s : string)
  | PPath (s : string).

(** [str(path)] *)
Definition path_str (p : pathlike) : string :=
  match p with PStr s => s | PPath s => s end.

(** The operations on files of the current directory that can fail. *)
Inductive file_op :=
  | OpenProbeWrite | Urandom | WriteProbe | FlushProbe | FsyncProbe
  | OpenProbeRead | ReadProbe | RemoveProbe
  | OpenOutput | DumpOutput.

Record Host := {
  platform_system : string;
  platform_release : string;
  platform_python_version : string;
  platform_processor : string;
  platform_machine : string;
  os_cpu_count : option Z;
  (** [subprocess.run(cmd, shell=True, capture_output=True, text=True)] *)
  subprocess_run : string -> result CompletedProcess;
  (** [open("/proc/cpuinfo")]: the lines that can be read and the
      exception that ends the reading, if any *)
  proc_cpuinfo : result (list string * option exn);
  (** [import psutil; psutil.virtual_memory()] *)
  psutil_virtual_memory : result svmem;
  os_getcwd : result string;
  path_home : result string;
  os_path_exists : string -> bool;
  os_statvfs : string -> result statvfs_result;
  (** the n-th reading of [time.time()] and of [datetime.now()] *)
  time_time : nat -> Q;
  datetime_now : nat -> datetime;
  (** the exception raised by a file operation, if any *)
  fault : file_op -> option exn;
  (** the bytes that reached the file when [WriteProbe] fails *)
  short_write : Z
}.

(** ** The world: what the script changes *)

(** The content of a file of the current directory: so many bytes; a
    JSON document, the serialisation of a value; or a document cut short. *)
Inductive content :=
  | Bytes (n : Z)
  | Json (v : pyval)
  | PartialJson.

(** A piece of a printed line: literal text or a formatted value. *)
Inductive fragment :=
  | Lit (s : string)
  | Fmt (v : pyval).

Record World := {
  files : gmap string content;
  clock_reads : nat;
  printed : list (list fragment)
}.

Definition set_files (f : gmap string content -> gmap string content) (w : World) : World :=
  {| files := f (files w); clock_reads := clock_reads w; printed := printed w |}.

Definition tick (w : World) : World :=
  {| files := files w; clock_reads := S (clock_reads w); printed := printed w |}.

(** [print(...)] *)
Definition print (line : list fragment) : M World unit :=
  modify (fun w =>
    {| files := files w; clock_reads := clock_reads w; printed := printed w ++ [line] |}).

(** [time.time()] *)
Definition time_now (h : Host) : M World Q :=
  fun w => (Ok (time_time h (clock_reads w)), tick w).

(** [datetime.now()] *)
Definition now (h : Host) : M World datetime :=
  fun w => (Ok (datetime_now h (clock_reads w)), tick w).

(** Raise what the host says that the operation raises. *)
Definition check {S} (h : Host) (op : file_op) : M S unit :=
  match fault h op with
  | Some e => raise e
  | None => ret tt
  end.

(** [open(name, "wb")] and [open(name, "w")]: the file is created, or
    emptied if it is there. *)
Definition open_write (h : Host) (op : file_op) (name : string) : M World unit :=
  check h op ;;
  modify (set_files (insert name (Bytes 0))).

(** [open(name, "rb")] *)
Definition open_read (h : Host) (op : file_op) (name : string) : M World unit :=
  check h op ;;
  fun w =>
    match files w !! name with
    | Some _ => (Ok tt, w)
    | None => (Raise (Exn FileNotFoundError "[Errno 2] No such file or directory"), w)
    end.

(** [os.urandom(n)]: the data is known by its length only. *)
Definition os_urandom (h : Host) (n : Z) : M World Z :=
  check h Urandom ;; ret n.

(** [f.write(data)] on the file called [name] *)
Definition file_write (h : Host) (name : string) (data : Z) : M World unit :=
  match fault h WriteProbe with
  | Some e => modify (set_files (insert name (Bytes (short_write h)))) ;; raise e
  | None => modify (set_files (insert name (Bytes data)))
  end.

(** [os.remove(name)] *)
Definition os_remove (h : Host) (name : string) : M World unit :=
  check h RemoveProbe ;;
  fun w =>
    match files w !! name with
    | Some _ => (Ok tt, set_files (delete name) w)
    | None => (Raise (Exn FileNotFoundError "[Errno 2] No such file or directory"), w)
    end.

(** [json.dump(v, f, indent=2)] on the file called [name] *)
Definition json_dump (h : Host) (name : string) (v : pyval) : M World unit :=
  match fault h DumpOutput with
  | Some e => modify (set_files (insert name PartialJson)) ;; raise e
  | None => modify (set_files (insert name (Json v)))
  end.

(** An attribute of an [os.statvfs_result]. *)
Definition statvfs_getattr {S} (st : statvfs_result) (name : string) : M S Z :=
  if String.eqb name "f_bsize" then ret (f_bsize st)
  else if String.eqb name "f_frsize" then ret (f_frsize st)
  else if String.eqb name "f_blocks" then ret (f_blocks st)
  else if String.eqb name "f_bfree" then ret (f_bfree st)
  else if String.eqb name "f_bavail" then ret (f_bavail st)
  else if String.eqb name "f_files" then ret (f_files st)
  else if String.eqb name "f_ffree" then ret (f_ffree st)
  else if String.eqb name "f_favail" then ret (f_favail st)
  else if String.eqb name "f_flag" then ret (f_flag st)
  else if String.eqb name "f_namemax" then ret (f_namemax st)
  else if String.eqb name "f_fsid" then ret (f_fsid st)
  else raise (Exn AttributeError
                ("'os.statvfs_result' object has no attribute '" +:+ name +:+ "'")).

(** [details.items()] *)
Definition py_items {S} (v : pyval) : M S dict :=
  match v with
  | VDict d => ret d
  | _ => raise (Exn AttributeError "object has no attribute 'items'")
  end.

(** ** The script *)

(** [run_command(cmd)] *)
Definition run_command {S} (h : Host) (cmd : string) : M S (option string) :=
  try_except
    (result <- lift (subprocess_run h cmd) ;;
     if returncode result =? 0 then ret (Some (Str.strip (stdout result)))
     else ret None)
    is_Exception
    (fun _ => ret None).

(** The loop of [get_cpu_info] over the lines of [/proc/cpuinfo]; it
    stops at the first line that starts with [model name]. *)
Fixpoint scan_cpuinfo (lines : list string) (stop : option exn) : M dict unit :=
  match lines with
  | [] => match stop with Some e => raise e | None => ret tt end
  | line :: rest =>
      if Str.startswith line "model name" then
        field <- index (Str.split ":" line) 1 ;;
        setitem "model" (VStr (Str.strip field))
      else scan_cpuinfo rest stop
  end.

(** [get_cpu_info()] *)
Definition get_cpu_info (h : Host) : result dict :=
  returning
    [ ("processor",
        VStr (if Str.is_empty (platform_processor h) then "Unknown"
              else platform_processor h));
      ("architecture", VStr (platform_machine h));
      ("python_cpu_count",
        match os_cpu_count h with Some n => VInt n | None => VNone end) ]
    (if String.eqb (platform_system h) "Darwin" then
       sysctl_info <- run_command h "sysctl -n machdep.cpu.brand_string" ;;
       if_truthy sysctl_info (fun sysctl_info =>
         setitem "model" (VStr sysctl_info)) ;;
       perf_cores <- run_command h "sysctl -n hw.perflevel0.physicalcpu" ;;
       eff_cores <- run_command h "sysctl -n hw.perflevel1.physicalcpu" ;;
       if_truthy perf_cores (fun perf_cores =>
       if_truthy eff_cores (fun eff_cores =>
         p <- py_int perf_cores ;;
         setitem "performance_cores" (VInt p) ;;
         e <- py_int eff_cores ;;
         setitem "efficiency_cores" (VInt e)))
     else if String.eqb (platform_system h) "Linux" then
       try_except
         (f <- lift (proc_cpuinfo h) ;;
          scan_cpuinfo f.1 f.2)
         is_Exception
         (fun _ => ret tt)
     else ret tt).

(** [get_memory_info()] *)
Definition get_memory_info (h : Host) : result dict :=
  returning []
    (try_except
       (mem <- lift (psutil_virtual_memory h) ;;
        setitem "total_gb"
          (VFloat (py_round (inject_Z (vm_total mem) / inject_Z (1024 ^ 3)) 2)) ;;
        setitem "available_gb"
          (VFloat (py_round (inject_Z (vm_available mem) / inject_Z (1024 ^ 3)) 2)) ;;
        setitem "used_percent" (VFloat (vm_percent mem)))
       is_ImportError
       (fun _ =>
          if String.eqb (platform_system h) "Darwin" then
            mem_size <- run_command h "sysctl -n hw.memsize" ;;
            if_truthy mem_size (fun mem_size =>
              n <- py_int mem_size ;;
              setitem "total_gb"
                (VFloat (py_round (inject_Z n / inject_Z (1024 ^ 3)) 2)))
          else if String.eqb (platform_system h) "Linux" then
            mem_info <- run_command h "grep MemTotal /proc/meminfo" ;;
            if_truthy mem_info (fun mem_info =>
              field <- index (Str.split_ws mem_info) 1 ;;
              kb <- py_int field ;;
              setitem "total_gb"
                (VFloat (py_round (inject_Z kb / inject_Z (1024 ^ 2)) 2)))
          else ret tt)).

(** The table [fs_map] of [get_filesystem_info]. *)
Definition fs_map : list (string * string) :=
  [ ("ext4", "ext4 (likely SSD/HDD)"); ("xfs", "XFS"); ("btrfs", "Btrfs");
    ("nfs", "NFS (Network)"); ("tmpfs", "tmpfs (RAM)"); ("zfs", "ZFS") ].

(** The macOS branch of [get_filesystem_info], on the dictionary
    [fs_info] of one path. *)
Definition darwin_fs_type (h : Host) (path : pathlike) : M dict unit :=
  mount_result <- run_command h ("df '" +:+ path_str path +:+ "' | tail -1") ;;
  if_truthy mount_result (fun mount_result =>
    mount_point <-
      (if negb (Str.is_empty mount_result)
       then (x <- index_last (Str.split_ws mount_result) ;; ret (Some x))
       else ret None) ;;
    if_truthy mount_point (fun mount_point =>
      mount_info <- run_command h ("mount | grep '^" +:+ mount_point +:+ " '") ;;
      mount_info <-
        (if negb (truthy mount_info)
         then run_command h ("mount | grep ' " +:+ mount_point +:+ " '")
         else ret mount_info) ;;
      if_truthy mount_info (fun mount_info =>
        if Str.contains "(" mount_info then
          after <- index (Str.split "(" mount_info) 1 ;;
          fs_details <- index (Str.split ")" after) 0 ;;
          let fs_parts := map Str.strip (Str.split "," fs_details) in
          (if Str.mem "apfs" fs_parts then setitem "type" (VStr "APFS (SSD)")
           else if Str.mem "hfs" fs_parts then setitem "type" (VStr "HFS+")
           else if Str.contains "nfs" (Str.lower fs_details)
             then setitem "type" (VStr "NFS (Network)")
           else if Str.contains "smbfs" (Str.lower fs_details)
             then setitem "type" (VStr "SMB (Network)")
           else setitem "type"
                  (VStr (match fs_parts with p :: _ => p | [] => "Unknown" end))) ;;
          (if Str.mem "local" fs_parts then setitem "mount_type" (VStr "local")
           else if Str.contains "nfs" (Str.lower fs_details)
                   || Str.contains "smbfs" (Str.lower fs_details)
             then setitem "mount_type" (VStr "network")
           else ret tt)
        else ret tt))).

(** The Linux branch. *)
Definition linux_fs_type (h : Host) (path : pathlike) : M dict unit :=
  result <- run_command h ("stat -f -c %T '" +:+ path_str path +:+ "'") ;;
  if_truthy result (fun result =>
    setitem "type" (VStr (default result (dict_get result fs_map)))).

(** The disk usage of one path.  The script reads the attribute
    [f_available], which an [os.statvfs_result] does not have. *)
Definition disk_usage (h : Host) (path : pathlike) : M dict unit :=
  try_except
    (statvfs <- lift (os_statvfs h (path_str path)) ;;
     blocks <- statvfs_getattr statvfs "f_blocks" ;;
     frsize <- statvfs_getattr statvfs "f_frsize" ;;
     let total_gb := (inject_Z (blocks * frsize) / inject_Z (1024 ^ 3))%Q in
     available <- statvfs_getattr statvfs "f_available" ;;
     frsize' <- statvfs_getattr statvfs "f_frsize" ;;
     let free_gb := (inject_Z (available * frsize') / inject_Z (1024 ^ 3))%Q in
     setitem "total_gb" (VFloat (py_round total_gb 2)) ;;
     setitem "free_gb" (VFloat (py_round free_gb 2)) ;;
     used <- py_div (total_gb - free_gb)%Q total_gb ;;
     setitem "used_percent" (VFloat (py_round (used * 100) 1)))
    is_Exception
    (fun _ => ret tt).

(** One turn of the loop of [get_filesystem_info], for a path that
    exists: the dictionary [fs_info]. *)
Definition fs_entry (h : Host) (path : pathlike) : result dict :=
  returning [ ("path", VStr (path_str path)) ]
    ((if String.eqb (platform_system h) "Darwin" then darwin_fs_type h path
      else if String.eqb (platform_system h) "Linux" then linux_fs_type h path
      else ret tt) ;;
     disk_usage h path).

(** [get_filesystem_info()] *)
Definition get_filesystem_info (h : Host) : result dict :=
  returning []
    (cwd <- lift (os_getcwd h) ;;
     home <- lift (path_home h) ;;
     let paths_to_check :=
       [ ("current_dir", PStr cwd); ("home", PPath home); ("tmp", PStr "/tmp") ] in
     for_each paths_to_check (fun '(name, path) =>
       if negb (os_path_exists h (path_str path)) then ret tt
       else
         fs_info <- lift (fs_entry h path) ;;
         setitem name (VDict fs_info))).

Definition test_file : string := "io_test_tmp.bin".
Definition test_size : Z := 100 * 1024 * 1024.

(** The write test of [get_io_performance]; the state is the world and
    the dictionary [info]. *)
Definition write_test (h : Host) : M (World * dict) unit :=
  start <- on_fst (time_now h) ;;
  on_fst (open_write h OpenProbeWrite test_file) ;;
  data <- on_fst (os_urandom h test_size) ;;
  on_fst (file_write h test_file data) ;;
  on_fst (check h FlushProbe) ;;
  on_fst (check h FsyncProbe) ;;
  stop <- on_fst (time_now h) ;;
  let write_time := (stop - start)%Q in
  write_speed <- py_div (inject_Z test_size / inject_Z (1024 * 1024))%Q write_time ;;
  on_snd (setitem "write_speed_mb_s" (VFloat (py_round write_speed 2))).

(** The read test. *)
Definition read_test (h : Host) : M (World * dict) unit :=
  start <- on_fst (time_now h) ;;
  on_fst (open_read h OpenProbeRead test_file) ;;
  on_fst (check h ReadProbe) ;;
  stop <- on_fst (time_now h) ;;
  let read_time := (stop - start)%Q in
  read_speed <- py_div (inject_Z test_size / inject_Z (1024 * 1024))%Q read_time ;;
  on_snd (setitem "read_speed_mb_s" (VFloat (py_round read_speed 2))).

(** The [try] block of [get_io_performance]: the two tests, then the
    cleanup. *)
Definition io_probe (h : Host) : M (World * dict) unit :=
  write_test h ;;
  read_test h ;;
  on_fst (os_remove h test_file).

(** [get_io_performance()] *)
Definition get_io_performance (h : Host) : M World dict :=
  fun w =>
    let '(r, (w', info)) :=
      try_except (io_probe h) is_Exception
        (fun e => on_snd (setitem "error" (VStr (exn_msg e))))
        (w, []) in
    (match r with Ok _ => Ok info | Raise e => Raise e end, w').

Definition print_items (indent : string) (d : dict) : M World unit :=
  for_each d (fun '(key, value) =>
    print [Lit indent; Lit key; Lit ": "; Fmt value]).

(** The record that [main] serialises. *)
Definition all_info_of (h : Host) (timestamp : datetime)
    (cpu_info mem_info fs_info io_info : dict) : pyval :=
  VDict
    [ ("timestamp", VStr (isoformat timestamp));
      ("platform",
        VDict [ ("system", VStr (platform_system h));
                ("release", VStr (platform_release h));
                ("python", VStr (platform_python_version h)) ]);
      ("cpu", VDict cpu_info);
      ("memory", VDict mem_info);
      ("filesystem", VDict fs_info);
      ("io_performance", VDict io_info) ].

(** [main()] *)
Definition main (h : Host) : M World unit :=
  print [Lit (Str.times "=" 60)] ;;
  print [Lit "System Information for Snakemake Profiling"] ;;
  print [Lit (Str.times "=" 60)] ;;
  t <- now h ;;
  print [Lit "Timestamp: "; Lit (isoformat t)] ;;
  print [Lit "Platform: "; Lit (platform_system h); Lit " "; Lit (platform_release h)] ;;
  print [Lit "Python: "; Lit (platform_python_version h)] ;;
  print [] ;;
  print [Lit "CPU Information:"] ;;
  cpu_info <- lift (get_cpu_info h) ;;
  print_items "  " cpu_info ;;
  print [] ;;
  print [Lit "Memory Information:"] ;;
  mem_info <- lift (get_memory_info h) ;;
  print_items "  " mem_info ;;
  print [] ;;
  print [Lit "Filesystem Information:"] ;;
  fs_info <- lift (get_filesystem_info h) ;;
  for_each fs_info (fun '(name, details) =>
    print [Lit "  "; Lit name; Lit ":"] ;;
    items <- py_items details ;;
    print_items "    " items) ;;
  print [] ;;
  print [Lit "I/O Performance (current directory):"] ;;
  io_info <- get_io_performance h ;;
  print_items "  " io_info ;;
  print [] ;;
  t <- now h ;;
  let output_file := "system_info_" +:+ strftime_ymd_hms t +:+ ".json" in
  t <- now h ;;
  let all_info := all_info_of h t cpu_info mem_info fs_info io_info in
  open_write h OpenOutput output_file ;;
  json_dump h output_file all_info ;;
  print [Lit "Results saved to: "; Lit output_file] ;;
  print [Lit (Str.times "=" 60)].

(** * Specification vocabulary *)

(** A computation that leaves the state as it is. *)
Definition stateless {S A} (m : M S A) : Prop := ∀ s, (m s).2 = s.

(** A computation that keeps a property of the state, also when it
    raises. *)
Definition preserves {S A} (I : S → Prop) (m : M S A) : Prop :=
  ∀ s, I s → I (m s).2.

(** [wp m Q s]: running [m] from the state [s] ends with a result and a
    state that satisfy [Q], whether it returns or raises. *)
Definition wp {S A} (m : M S A) (Q : result A → S → Prop) (s : S) : Prop :=
  Q (m s).1 (m s).2.

(** What [run_command] returns, read off the answer of the host. *)
Definition command_output (h : Host) (cmd : string) : option string :=
  match subprocess_run h cmd with
  | Ok p => if returncode p =? 0 then Some (Str.strip (stdout p)) else None
  | Raise _ => None
  end.

(** The line at which the loop over [/proc/cpuinfo] stops. *)
Definition model_line (lines : list string) : option string :=
  List.find (λ line, Str.startswith line "model name") lines.

(** A scalar: a number, a string or [None]. *)
Definition scalar (v : pyval) : bool :=
  match v with
  | VDict _ => false
  | _ => true
  end.

(** A mapping whose values are all scalars. *)
Definition flat (d : dict) : bool := forallb (λ kv, scalar kv.2) d.

(** A mapping whose values are all flat mappings. *)
Definition flat_sections (d : dict) : bool :=
  forallb (λ kv, match kv.2 with VDict e => flat e | _ => false end) d.

(** A mapping whose keys are all in a given list. *)
Definition keys_within {V} (allowed : list string) (d : list (string * V)) : bool :=
  forallb (λ k, Str.mem k allowed) (dict_keys d).

(** The fields in which the probes put what they measured. *)
Definition cpu_fields : list string :=
  [ "processor"; "architecture"; "python_cpu_count"; "model";
    "performance_cores"; "efficiency_cores" ].
Definition memory_fields : list string :=
  [ "total_gb"; "available_gb"; "used_percent" ].
Definition filesystem_names : list string := [ "current_dir"; "home"; "tmp" ].
Definition filesystem_fields : list string := [ "path"; "type"; "mount_type" ].
Definition io_fields : list string := [ "write_speed_mb_s"; "read_speed_mb_s" ].

(** The path that [get_filesystem_info] checks under a name. *)
Definition checked_path (h : Host) (name : string) : option string :=
  if String.eqb name "current_dir" then
    match os_getcwd h with Ok p => Some p | Raise _ => None end
  else if String.eqb name "home" then
    match path_home h with Ok p => Some p | Raise _ => None end
  else if String.eqb name "tmp" then Some "/tmp"
  else None.

(** The world before the script runs: an empty current directory. *)
Definition fresh_world : World :=
  {| files := ∅; clock_reads := 0; printed := [] |}.

(** ** Example hosts *)

Definition example_statvfs : statvfs_result :=
  {| f_bsize := 4096; f_frsize := 4096; f_blocks := 61033216; f_bfree := 30000000;
     f_bavail := 28000000; f_files := 15269888; f_ffree := 14000000;
     f_favail := 14000000; f_flag := 4096; f_namemax := 255; f_fsid := 77 |}.

Definition example_datetime (n : nat) : datetime :=
  {| isoformat := "2024-05-17T10:31:02.481516"; strftime_ymd_hms := "20240517_103102" |}.

(** The clock advances by a quarter of a second between two readings. *)
Definition example_clock (n : nat) : Q := (1715941862 + inject_Z (Z.of_nat n) / 4)%Q.

(** A Linux machine without [psutil]. *)
Definition linux_host : Host :=
  {| platform_system := "Linux";
     platform_release := "6.1.0-18-amd64";
     platform_python_version := "3.11.2";
     platform_processor := "";
     platform_machine := "x86_64";
     os_cpu_count := Some 8;
     subprocess_run := λ cmd,
       if String.eqb cmd "grep MemTotal /proc/meminfo" then
         Ok {| returncode := 0; stdout := "MemTotal:       16315752 kB" +:+ String "010" "" |}
       else if String.eqb cmd "stat -f -c %T '/tmp'" then
         Ok {| returncode := 0; stdout := "tmpfs" +:+ String "010" "" |}
       else if String.eqb cmd "stat -f -c %T '/home/ada/run'" then
         Ok {| returncode := 0; stdout := "ext2/ext3" +:+ String "010" "" |}
       else Ok {| returncode := 1; stdout := "" |};
     proc_cpuinfo :=
       Ok ([ "processor" +:+ String "009" ": 0" +:+ String "010" "";
             "model name" +:+ String "009" ": Intel(R) Core(TM) i7-8650U CPU @ 1.90GHz"
               +:+ String "010" "";
             "cpu MHz" +:+ String "009" ": 2100.000" +:+ String "010" "" ], None);
     psutil_virtual_memory := Raise (Exn ModuleNotFoundError "No module named 'psutil'");
     os_getcwd := Ok "/home/ada/run";
     path_home := Ok "/home/ada";
     os_path_exists := λ p, true;
     os_statvfs := λ p, Ok example_statvfs;
     time_time := example_clock;
     datetime_now := example_datetime;
     fault := λ op, None;
     short_write := 0 |}.

(** The same machine with a full disk: the write of the probe fails
    after 20 MB. *)
Definition disk_full_host : Host :=
  {| platform_system := platform_system linux_host;
     platform_release := platform_release linux_host;
     platform_python_version := platform_python_version linux_host;
     platform_processor := platform_processor linux_host;
     platform_machine := platform_machine linux_host;
     os_cpu_count := os_cpu_count linux_host;
     subprocess_run := subprocess_run linux_host;
     proc_cpuinfo := proc_cpuinfo linux_host;
     psutil_virtual_memory := psutil_virtual_memory linux_host;
     os_getcwd := os_getcwd linux_host;
     path_home := path_home linux_host;
     os_path_exists := os_path_exists linux_host;
     os_statvfs := os_statvfs linux_host;
     time_time := time_time linux_host;
     datetime_now := datetime_now linux_host;
     fault := λ op,
       match op with
       | WriteProbe => Some (Exn OSError "[Errno 28] No space left on device")
       | _ => None
       end;
     short_write := 20971520 |}.

(** The same machine, where [grep] answers with the bare label. *)
Definition bare_meminfo_host : Host :=
  {| platform_system := platform_system linux_host;
     platform_release := platform_release linux_host;
     platform_python_version := platform_python_version linux_host;
     platform_processor := platform_processor linux_host;
     platform_machine := platform_machine linux_host;
     os_cpu_count := os_cpu_count linux_host;
     subprocess_run := λ cmd,
       if String.eqb cmd "grep MemTotal /proc/meminfo" then
         Ok {| returncode := 0; stdout := "MemTotal:" +:+ String "010" "" |}
       else subprocess_run linux_host cmd;
     proc_cpuinfo := proc_cpuinfo linux_host;
     psutil_virtual_memory := psutil_virtual_memory linux_host;
     os_getcwd := os_getcwd linux_host;
     path_home := path_home linux_host;
     os_path_exists := os_path_exists linux_host;
     os_statvfs := os_statvfs linux_host;
     time_time := time_time linux_host;
     datetime_now := datetime_now linux_host;
     fault := fault linux_host;
     short_write := 0 |}.

(** A Mac with Apple silicon and [psutil]. *)
Definition macos_host : Host :=
  {| platform_system := "Darwin";
     platform_release := "23.4.0";
     platform_python_version := "3.12.3";
     platform_processor := "arm";
     platform_machine := "arm64";
     os_cpu_count := Some 10;
     subprocess_run := λ cmd,
       if String.eqb cmd "sysctl -n machdep.cpu.brand_string" then
         Ok {| returncode := 0; stdout := "Apple M1 Pro" +:+ String "010" "" |}
       else if String.eqb cmd "sysctl -n hw.perflevel0.physicalcpu" then
         Ok {| returncode := 0; stdout := "8" +:+ String "010" "" |}
       else if String.eqb cmd "sysctl -n hw.perflevel1.physicalcpu" then
         Ok {| returncode := 0; stdout := "2" +:+ String "010" "" |}
       else if String.prefix "df '" cmd then
         Ok {| returncode := 0;
               stdout := "/dev/disk3s5   482797652 301915248 160072972    66% 1893241 1600729720    0%   /System/Volumes/Data"
                 +:+ String "010" "" |}
       else if String.eqb cmd "mount | grep '^/System/Volumes/Data '" then
         Ok {| returncode := 1; stdout := "" |}
       else if String.eqb cmd "mount | grep ' /System/Volumes/Data '" then
         Ok {| returncode := 0;
               stdout := "/dev/disk3s5 on /System/Volumes/Data (apfs, local, journaled, nobrowse, protect)"
                 +:+ String "010" "" |}
       else Ok {| returncode := 127; stdout := "" |};
     proc_cpuinfo := Raise (Exn FileNotFoundError "[Errno 2] No such file or directory: '/proc/cpuinfo'");
     psutil_virtual_memory :=
       Ok {| vm_total := 17179869184; vm_available := 6012954214; vm_percent := 65 # 1 |};
     os_getcwd := Ok "/Users/ada/run";
     path_home := Ok "/Users/ada";
     os_path_exists := λ p, true;
     os_statvfs := λ p, Ok example_statvfs;
     time_time := example_clock;
     datetime_now := example_datetime;
     fault := λ op, None;
     short_write := 0 |}.

(** What [get_cpu_info] returns on that Mac. *)
Definition macos_cpu_info : dict :=
  [ ("processor", VStr "arm"); ("architecture", VStr "arm64");
    ("python_cpu_count", VInt 10); ("model", VStr "Apple M1 Pro");
    ("performance_cores", VInt 8); ("efficiency_cores", VInt 2) ].

(** A Mac on which [sysctl] prints a word for the core counts. *)
Definition odd_sysctl_host : Host :=
  {| platform_system := platform_system macos_host;
     platform_release := platform_release macos_host;
     platform_python_version := platform_python_version macos_host;
     platform_processor := platform_processor macos_host;
     platform_machine := platform_machine macos_host;
     os_cpu_count := os_cpu_count macos_host;
     subprocess_run := λ cmd,
       if String.eqb cmd "sysctl -n hw.perflevel0.physicalcpu" then
         Ok {| returncode := 0; stdout := "unknown" +:+ String "010" "" |}
       else subprocess_run macos_host cmd;
     proc_cpuinfo := proc_cpuinfo macos_host;
     psutil_virtual_memory := psutil_virtual_memory macos_host;
     os_getcwd := os_getcwd macos_host;
     path_home := path_home macos_host;
     os_path_exists := os_path_exists macos_host;
     os_statvfs := os_statvfs macos_host;
     time_time := time_time macos_host;
     datetime_now := datetime_now macos_host;
     fault := fault macos_host;
     short_write := 0 |}.

(** A Windows machine without [psutil]: no command of the script exists
    there, nor does [os.statvfs]. *)
Definition windows_host : Host :=
  {| platform_system := "Windows";
     platform_release := "10";
     platform_python_version := "3.12.3";
     platform_processor := "Intel64 Family 6 Model 142 Stepping 10, GenuineIntel";
     platform_machine := "AMD64";
     os_cpu_count := Some 8;
     subprocess_run := λ cmd, Ok {| returncode := 1; stdout := "" |};
     proc_cpuinfo := Raise (Exn FileNotFoundError "[Errno 2] No such file or directory: '/proc/cpuinfo'");
     psutil_virtual_memory := Raise (Exn ModuleNotFoundError "No module named 'psutil'");
     os_getcwd := Ok "C:\work";
     path_home := Ok "C:\Users\ada";
     os_path_exists := λ p, negb (String.eqb p "/tmp");
     os_statvfs := λ p, Raise (Exn AttributeError "module 'os' has no attribute 'statvfs'");
     time_time := example_clock;
     datetime_now := example_datetime;
     fault := λ op, None;
     short_write := 0 |}.

(** A computation over the world that only prints: it returns, and the
    files and the clock are as before. *)
Definition prints_only {A} (m : M World A) : Prop :=
  ∀ w, is_ok (m w).1 = true ∧
       files (m w).2 = files w ∧ clock_reads (m w).2 = clock_reads w.

(** What [get_filesystem_info] returns on the Windows machine, where
    [/tmp] does not exist. *)
Definition windows_filesystem_info : dict :=
  [ ("current_dir", VDict [ ("path", VStr "C:\work") ]);
    ("home", VDict [ ("path", VStr "C:\Users\ada") ]) ].


(** The size of the probe file in MB, as the script computes it. *)
Definition test_size_mb : Q := (inject_Z test_size / inject_Z (1024 * 1024))%Q.


(** The time that the n-th and the next reading of the clock are apart. *)
Definition elapsed (h : Host) (n : nat) : Q :=
  (time_time h (S n) - time_time h n)%Q.

(** An item with a key of the list [fields] and a scalar value. *)
Definition field_of (fields : list string) (kv : string * pyval) : Prop :=
  Str.mem kv.1 fields = true ∧ scalar kv.2 = true.

Definition no_fault (h : Host) (op : file_op) : bool :=
  match fault h op with
  | None => true
  | Some _ => false
  end.

Definition is_some {A} (o : option A) : bool :=
  match o with
  | Some _ => true
  | None => false
  end.

(** ** Where the fields come from

    For each field of a section, the answers of the host without which
    the probe does not write it. *)

Definition cpu_obtained (h : Host) (field : string) : bool :=
  if String.eqb field "model" then
    String.eqb (platform_system h) "Darwin"
      && truthy (command_output h "sysctl -n machdep.cpu.brand_string")
    || String.eqb (platform_system h) "Linux"
      && match proc_cpuinfo h with
         | Ok f =>
             match model_line f.1 with
             | Some line => is_some (Str.split ":" line !! 1%nat)
             | None => false
             end
         | Raise _ => false
         end
  else if String.eqb field "performance_cores" || String.eqb field "efficiency_cores" then
    String.eqb (platform_system h) "Darwin"
      && truthy (command_output h "sysctl -n hw.perflevel0.physicalcpu")
      && truthy (command_output h "sysctl -n hw.perflevel1.physicalcpu")
  else true.

Definition memory_obtained (h : Host) (field : string) : bool :=
  match psutil_virtual_memory h with
  | Ok _ => true
  | Raise e =>
      is_ImportError e && String.eqb field "total_gb"
      && (String.eqb (platform_system h) "Darwin"
            && truthy (command_output h "sysctl -n hw.memsize")
          || String.eqb (platform_system h) "Linux"
            && truthy (command_output h "grep MemTotal /proc/meminfo"))
  end.

Definition filesystem_obtained (h : Host) (path : string) (field : string) : bool :=
  if String.eqb field "path" then true
  else
    String.eqb (platform_system h) "Darwin"
      && truthy (command_output h ("df '" +:+ path +:+ "' | tail -1"))
    || String.eqb (platform_system h) "Linux"
      && truthy (command_output h ("stat -f -c %T '" +:+ path +:+ "'")).

Definition write_test_faultless (h : Host) : bool :=
  no_fault h OpenProbeWrite && no_fault h Urandom && no_fault h WriteProbe
  && no_fault h FlushProbe && no_fault h FsyncProbe.


(** An entry of the mapping of [get_filesystem_info]: one of the three
    names, whose path exists, with a flat mapping that records the path
    and whose fields have their sources. *)
Definition fs_entry_ok (h : Host) (kv : string * pyval) : Prop :=
  Str.mem kv.1 filesystem_names = true ∧
  ∃ p d, checked_path h kv.1 = Some p ∧ os_path_exists h p = true ∧
         kv.2 = VDict d ∧ dict_get "path" d = Some (VStr p) ∧
         keys_within filesystem_fields d = true ∧ flat d = true ∧
         ∀ field, dict_has field d = true → filesystem_obtained h p field = true.

(** The three entries that [get_cpu_info] always writes. *)
Definition cpu_base_info (h : Host) : dict :=
  [ ("processor",
      VStr (if Str.is_empty (platform_processor h) then "Unknown"
            else platform_processor h));
    ("architecture", VStr (platform_machine h));
    ("python_cpu_count",
      match os_cpu_count h with Some n => VInt n | None => VNone end) ].


(** ** When the probes return *)

Definition parses (o : option string) : bool :=
  match o with
  | Some s => is_some (Str.parse_int s)
  | None => false
  end.

(** [get_cpu_info] returns unless both core counts are printed and one
    of them is not an integer. *)
Definition cpu_info_returns (h : Host) : bool :=
  negb (String.eqb (platform_system h) "Darwin"
        && truthy (command_output h "sysctl -n hw.perflevel0.physicalcpu")
        && truthy (command_output h "sysctl -n hw.perflevel1.physicalcpu")
        && negb (parses (command_output h "sysctl -n hw.perflevel0.physicalcpu")
                 && parses (command_output h "sysctl -n hw.perflevel1.physicalcpu"))).

(** [get_memory_info] returns when [psutil] answers, or when [psutil]
    cannot be imported and the answer of the fallback command, if there
    is one, can be parsed. *)
Definition memory_info_returns (h : Host) : bool :=
  match psutil_virtual_memory h with
  | Ok _ => true
  | Raise e =>
      is_ImportError e &&
      if String.eqb (platform_system h) "Darwin" then
        negb (truthy (command_output h "sysctl -n hw.memsize"))
        || parses (command_output h "sysctl -n hw.memsize")
      else if String.eqb (platform_system h) "Linux" then
        negb (truthy (command_output h "grep MemTotal /proc/meminfo"))
        || match command_output h "grep MemTotal /proc/meminfo" with
           | Some s => parses (Str.split_ws s !! 1%nat)
           | None => false
           end
      else true
  end.

(** [get_filesystem_info] returns when the current and the home
    directory can be determined. *)
Definition filesystem_info_returns (h : Host) : bool :=
  is_ok (os_getcwd h) && is_ok (path_home h).

(** [main] returns when these three probes return and the output file
    can be written. *)
Definition main_returns (h : Host) : bool :=
  cpu_info_returns h && memory_info_returns h && filesystem_info_returns h
  && no_fault h OpenOutput && no_fault h DumpOutput.

(** ** Vocabulary of the further properties *)

(** What [get_filesystem_info] returns on the Linux machine. *)
Definition linux_filesystem_info : dict :=
  [ ("current_dir", VDict [ ("path", VStr "/home/ada/run"); ("type", VStr "ext2/ext3") ]);
    ("home", VDict [ ("path", VStr "/home/ada") ]);
    ("tmp", VDict [ ("path", VStr "/tmp"); ("type", VStr "tmpfs (RAM)") ]) ].

(** The key lists that the section of the I/O probe can have. *)
Definition io_key_lists : list (list string) :=
  [ [ "write_speed_mb_s"; "read_speed_mb_s" ];
    [ "error" ];
    [ "write_speed_mb_s"; "error" ];
    [ "write_speed_mb_s"; "read_speed_mb_s"; "error" ] ].

(** ** The exception that ends a probe

    Read off the answers of the host: the exception with which each
    function ends, [None] when it returns. *)



Definition filesystem_info_exception (h : Host) : option exn :=
  match os_getcwd h with
  | Raise e => Some e
  | Ok _ => match path_home h with Raise e => Some e | Ok _ => None end
  end.


(** The path checked under a name exists. *)
Definition path_present (h : Host) (name : string) : bool :=
  match checked_path h name with
  | Some p => os_path_exists h p
  | None => false
  end.

(** What [get_cpu_info] returns on Linux, read off [/proc/cpuinfo]. *)
Definition linux_cpu_info (h : Host) : dict :=
  match proc_cpuinfo h with
  | Ok f =>
      match model_line f.1 with
      | Some line =>
          match Str.split ":" line !! 1%nat with
          | Some field => cpu_base_info h ++ [ ("model", VStr (Str.strip field)) ]
          | None => cpu_base_info h
          end
      | None => cpu_base_info h
      end
  | Raise _ => cpu_base_info h
  end.

(** The entry of a path on Linux, read off the answer of [stat]: a type
    of the table is renamed, any other is kept as it is. *)
Definition linux_fs_entry (h : Host) (p : string) : dict :=
  ("path", VStr p) ::
  match command_output h ("stat -f -c %T '" +:+ p +:+ "'") with
  | Some s =>
      if Str.is_empty s then []
      else [ ("type", VStr (default s (dict_get s fs_map))) ]
  | None => []
  end.

(** The name of the output file when the clock is read for the n-th
    time to make it. *)
Definition output_name (h : Host) (n : nat) : string :=
  "system_info_" +:+ strftime_ymd_hms (datetime_now h n) +:+ ".json".

(** The keys of the record, in the order of the file. *)
Definition record_keys : list string :=
  [ "timestamp"; "platform"; "cpu"; "memory"; "filesystem"; "io_performance" ].

(** The Linux machine with a clock that does not advance. *)
Definition frozen_clock_host : Host :=
  {| platform_system := platform_system linux_host;
     platform_release := platform_release linux_host;
     platform_python_version := platform_python_version linux_host;
     platform_processor := platform_processor linux_host;
     platform_machine := platform_machine linux_host;
     os_cpu_count := os_cpu_count linux_host;
     subprocess_run := subprocess_run linux_host;
     proc_cpuinfo := proc_cpuinfo linux_host;
     psutil_virtual_memory := psutil_virtual_memory linux_host;
     os_getcwd := os_getcwd linux_host;
     path_home := path_home linux_host;
     os_path_exists := os_path_exists linux_host;
     os_statvfs := os_statvfs linux_host;
     time_time := λ n, 1715941862%Q;
     datetime_now := datetime_now linux_host;
     fault := fault linux_host;
     short_write := 0 |}.


(** ** The embedding on examples *)

Example strip_example :
  Str.strip ("  MemTotal: 16 kB " +:+ String "010" "") = "MemTotal: 16 kB".
Proof. reflexivity. Qed.

Example split_ws_example :
  Str.split_ws "MemTotal:       16315752 kB" = [ "MemTotal:"; "16315752"; "kB" ].
Proof. reflexivity. Qed.

Example split_example :
  Str.split "(" "/dev/disk3s5 on / (apfs, local)" = [ "/dev/disk3s5 on / "; "apfs, local)" ].
Proof. reflexivity. Qed.

Example split_no_separator : Str.split ":" "model name" = [ "model name" ].
Proof. reflexivity. Qed.

Example parse_int_examples :
  Str.parse_int " 8" = Some 8 ∧ Str.parse_int "-12" = Some (-12) ∧
  Str.parse_int "1_000" = Some 1000 ∧ Str.parse_int "1__0" = None ∧
  Str.parse_int "" = None ∧ Str.parse_int "unknown" = None.
Proof. by repeat split. Qed.

Example py_round_examples :
  py_round (1 # 8) 2 = (3 # 25)%Q ∧ py_round (3 # 8) 2 = (19 # 50)%Q ∧
  py_round (2 # 3) 1 = (7 # 10)%Q.
Proof. by repeat split. Qed.

Example get_memory_info_linux :
  get_memory_info linux_host = Ok [ ("total_gb", VFloat (389 # 25)) ].
Proof. reflexivity. Qed.

Example get_filesystem_info_macos :
  get_filesystem_info macos_host =
  Ok [ ("current_dir", VDict [ ("path", VStr "/Users/ada/run");
                               ("type", VStr "APFS (SSD)");
                               ("mount_type", VStr "local") ]);
       ("home", VDict [ ("path", VStr "/Users/ada");
                        ("type", VStr "APFS (SSD)");
                        ("mount_type", VStr "local") ]);
       ("tmp", VDict [ ("path", VStr "/tmp");
                       ("type", VStr "APFS (SSD)");
                       ("mount_type", VStr "local") ]) ].
Proof. reflexivity. Qed.
(** * Properties *)

(** ** Dictionaries *)

Section Dict.
Context {V : Type}.
Implicit Types (k : string) (v : V) (d : list (string * V)).

Lemma dict_get_set_eq k v d : dict_get k (dict_set k v d) = Some v.
Proof.
  induction d as [|[k' v'] d IH]; simpl.
  - by rewrite String.eqb_refl.
  - destruct (String.eqb k' k) eqn:E; simpl; by rewrite E.
Qed.

Lemma dict_get_set_ne k k' v d :
  k ≠ k' → dict_get k' (dict_set k v d) = dict_get k' d.
Proof.
  intros Hne. induction d as [|[k0 v0] d IH]; simpl.
  - by apply String.eqb_neq in Hne as ->.
  - destruct (String.eqb k0 k) eqn:E; simpl.
    + apply String.eqb_eq in E as ->.
      by apply String.eqb_neq in Hne as ->.
    + by rewrite IH.
Qed.

Lemma dict_has_set_eq k v d : dict_has k (dict_set k v d) = true.
Proof. unfold dict_has. by rewrite dict_get_set_eq. Qed.

Lemma dict_has_set_ne k k' v d :
  k ≠ k' → dict_has k' (dict_set k v d) = dict_has k' d.
Proof. intros. unfold dict_has. by rewrite dict_get_set_ne. Qed.

(** Assignment keeps every key that is there. *)
Lemma dict_has_set_mono k k' v d :
  dict_has k' d = true → dict_has k' (dict_set k v d) = true.
Proof.
  intros H. destruct (decide (k = k')) as [->|Hne].
  - apply dict_has_set_eq.
  - by rewrite dict_has_set_ne.
Qed.

(** A property of all the items survives an assignment of an item
    that has it. *)
Lemma Forall_dict_set (P : string * V → Prop) k v d :
  P (k, v) → Forall P d → Forall P (dict_set k v d).
Proof.
  intros Hkv. induction 1 as [|[k' v'] d Hx Hd IH]; simpl.
  - by repeat constructor.
  - destruct (String.eqb k' k) eqn:E.
    + apply String.eqb_eq in E as ->. by constructor.
    + by constructor.
Qed.

Lemma dict_get_Forall (P : string * V → Prop) k v d :
  Forall P d → dict_get k d = Some v → P (k, v).
Proof.
  induction 1 as [|[k' v'] d Hx Hd IH]; simpl; [done|].
  destruct (String.eqb k' k) eqn:E; [|done].
  apply String.eqb_eq in E as ->. by intros [= ->].
Qed.

Lemma dict_has_elem_of k d : dict_has k d = true ↔ k ∈ dict_keys d.
Proof.
  unfold dict_has, dict_keys. induction d as [|[k' v'] d IH]; simpl.
  - split; [done|]. by intros ?%elem_of_nil.
  - rewrite elem_of_cons. destruct (String.eqb k' k) eqn:E.
    + apply String.eqb_eq in E as ->. split; [by left|done].
    + apply String.eqb_neq in E. rewrite IH. split; [by right|].
      by intros [->|?].
Qed.
End Dict.

(** ** Computations *)

Section Monad.
Context {S : Type}.

Lemma stateless_ret {A} (a : A) : stateless (@ret S A a).
Proof. done. Qed.

Lemma stateless_raise {A} e : stateless (@raise S A e).
Proof. done. Qed.

Lemma stateless_lift {A} (r : result A) : stateless (@lift S A r).
Proof. done. Qed.

Lemma stateless_bind {A B} (m : M S A) (k : A → M S B) :
  stateless m → (∀ a, stateless (k a)) → stateless (bind m k).
Proof.
  intros Hm Hk s. unfold bind. specialize (Hm s).
  destruct (m s) as [[a|e] s']; simpl in *; subst; [apply Hk|done].
Qed.

Lemma stateless_try_except {A} (m : M S A) c (hd : exn → M S A) :
  stateless m → (∀ e, stateless (hd e)) → stateless (try_except m c hd).
Proof.
  intros Hm Hh s. unfold try_except. specialize (Hm s).
  destruct (m s) as [[a|e] s']; simpl in *; subst; [done|].
  destruct (c e); [apply Hh|done].
Qed.

Lemma stateless_index {A} (l : list A) i : stateless (@index S A l i).
Proof. unfold index. by destruct (l !! i). Qed.

Lemma stateless_index_last {A} (l : list A) : stateless (@index_last S A l).
Proof. unfold index_last. by destruct (last l). Qed.

Lemma stateless_py_int s : stateless (@py_int S s).
Proof. unfold py_int. by destruct (Str.parse_int s). Qed.

Lemma stateless_py_div a b : stateless (@py_div S a b).
Proof. unfold py_div. by destruct (Qeq_bool b 0). Qed.

Lemma stateless_statvfs_getattr st name : stateless (@statvfs_getattr S st name).
Proof. unfold statvfs_getattr. by repeat case_match. Qed.

Lemma stateless_check h op : stateless (@check S h op).
Proof. unfold check. by destruct (fault h op). Qed.

Lemma stateless_run_command h cmd : stateless (@run_command S h cmd).
Proof.
  apply stateless_try_except; [|done].
  apply stateless_bind; [done|]. intros p. by destruct (_ =? _).
Qed.

Lemma preserves_stateless {A} I (m : M S A) : stateless m → preserves I m.
Proof. intros Hm s Hs. by rewrite Hm. Qed.

Lemma preserves_modify I (f : S → S) : (∀ s, I s → I (f s)) → preserves I (modify f).
Proof. intros Hf s Hs. by apply Hf. Qed.

Lemma preserves_bind {A B} I (m : M S A) (k : A → M S B) :
  preserves I m → (∀ a, preserves I (k a)) → preserves I (bind m k).
Proof.
  intros Hm Hk s Hs. unfold bind. specialize (Hm s Hs).
  destruct (m s) as [[a|e] s']; simpl in *; [by apply Hk|done].
Qed.

Lemma preserves_try_except {A} I (m : M S A) c (hd : exn → M S A) :
  preserves I m → (∀ e, preserves I (hd e)) → preserves I (try_except m c hd).
Proof.
  intros Hm Hh s Hs. unfold try_except. specialize (Hm s Hs).
  destruct (m s) as [[a|e] s']; simpl in *; [done|].
  destruct (c e); [by apply Hh|done].
Qed.

Lemma preserves_if_truthy I o (k : string → M S unit) :
  (∀ s, preserves I (k s)) → preserves I (if_truthy o k).
Proof.
  intros Hk. destruct o as [s|]; simpl; [|by intros ??].
  destruct (Str.is_empty s); [by intros ??|apply Hk].
Qed.

Lemma preserves_for_each {A} I (l : list A) (f : A → M S unit) :
  (∀ x, preserves I (f x)) → preserves I (for_each l f).
Proof.
  intros Hf. induction l as [|x l IH]; simpl; [by intros ??|].
  apply preserves_bind; [apply Hf|by intros _].
Qed.
End Monad.

(** What [returning] returns has every property that the initial
    dictionary has and the body preserves. *)
Lemma returning_preserves {V} (I : list (string * V) → Prop) init body d :
  I init → preserves I body → returning init body = Ok d → I d.
Proof.
  intros Hi Hb. unfold returning. specialize (Hb init Hi).
  destruct (body init) as [[[]|e] d']; simpl in *; [|done].
  by intros [= <-].
Qed.

Lemma preserves_setitem {V} (P : string * V → Prop) k v :
  P (k, v) → preserves (Forall P) (setitem k v).
Proof. intros H. apply preserves_modify. intros d. by apply Forall_dict_set. Qed.

Lemma preserves_setitem_has {V} k k' (v : V) :
  preserves (λ d, dict_has k' d = true) (setitem k v).
Proof. apply preserves_modify. intros d. apply dict_has_set_mono. Qed.

Lemma preserves_setitem_get {V} k k' (v x : V) :
  k ≠ k' → preserves (λ d, dict_get k' d = Some x) (setitem k v).
Proof.
  intros Hne. apply preserves_modify. intros d Hd. by rewrite dict_get_set_ne.
Qed.

(** ** [run_command] *)

Lemma run_command_eq {S} (h : Host) (cmd : string) (s : S) :
  run_command h cmd s = (Ok (command_output h cmd), s).
Proof.
  unfold run_command, command_output, try_except, bind, lift.
  destruct (subprocess_run h cmd) as [p|e]; simpl; [|done].
  by destruct (returncode p =? 0).
Qed.

(** C8: [run_command] never raises; it returns the stripped standard
    output exactly when the command ran and exited with code 0, and
    [None] in every other case. *)
Theorem run_command_never_raises {S} (h : Host) (cmd : string) (s : S) :
  (∃ out, run_command h cmd s = (Ok out, s)) ∧
  (∀ text, run_command h cmd s = (Ok (Some text), s) ↔
     ∃ p, subprocess_run h cmd = Ok p ∧ returncode p = 0 ∧
          text = Str.strip (stdout p)) ∧
  (run_command h cmd s = (Ok None, s) ↔
     ¬ ∃ p, subprocess_run h cmd = Ok p ∧ returncode p = 0).
Proof.
  rewrite run_command_eq. unfold command_output.
  split; [by eexists|].
  destruct (subprocess_run h cmd) as [p|e].
  - destruct (Z.eqb_spec (returncode p) 0) as [Hrc|Hrc].
    + split.
      * intros text. split.
        -- intros [= <-]. by exists p.
        -- intros (p' & [= <-] & _ & ->). done.
      * split; [done|]. intros Hn. destruct Hn. by exists p.
    + split.
      * intros text. split; [done|]. by intros (p' & [= <-] & ? & _).
      * split; [|done]. by intros _ (p' & [= <-] & ?).
  - split.
    + intros text. split; [done|]. by intros (p' & ? & _).
    + split; [|done]. by intros _ (p' & ? & _).
Qed.

(** ** Weakest preconditions *)

Section Wp.
Context {S : Type}.
Implicit Types (s : S).

Lemma wp_ret {A} (a : A) (Q : result A → S → Prop) s :
  Q (Ok a) s → wp (ret a) Q s.
Proof. done. Qed.

Lemma wp_raise {A} e (Q : result A → S → Prop) s :
  Q (Raise e) s → wp (raise e) Q s.
Proof. done. Qed.

Lemma wp_lift {A} (r : result A) (Q : result A → S → Prop) s :
  Q r s → wp (lift r) Q s.
Proof. done. Qed.

Lemma wp_modify (f : S → S) (Q : result unit → S → Prop) s :
  Q (Ok tt) (f s) → wp (modify f) Q s.
Proof. done. Qed.

Lemma wp_bind {A B} (m : M S A) (k : A → M S B) (Q : result B → S → Prop) s :
  wp m (λ r s', match r with
                | Ok a => wp (k a) Q s'
                | Raise e => Q (Raise e) s'
                end) s →
  wp (bind m k) Q s.
Proof. unfold wp, bind. by destruct (m s) as [[a|e] s']. Qed.

Lemma wp_try_except {A} (m : M S A) (c : exn → bool) (hd : exn → M S A)
    (Q : result A → S → Prop) s :
  wp m (λ r s', match r with
                | Ok a => Q (Ok a) s'
                | Raise e => if c e then wp (hd e) Q s' else Q (Raise e) s'
                end) s →
  wp (try_except m c hd) Q s.
Proof.
  unfold wp, try_except. destruct (m s) as [[a|e] s']; simpl; [done|].
  by destruct (c e).
Qed.

(** The postcondition may be weakened. *)
Lemma wp_mono {A} (m : M S A) (Q Q' : result A → S → Prop) s :
  wp m Q s → (∀ r s', Q r s' → Q' r s') → wp m Q' s.
Proof. unfold wp. auto. Qed.

Lemma wp_stateless {A} (m : M S A) (Q : result A → S → Prop) s :
  stateless m → (∀ r, Q r s) → wp m Q s.
Proof. intros Hm HQ. unfold wp. by rewrite Hm. Qed.

Lemma wp_preserves {A} (m : M S A) (I : S → Prop) s :
  preserves I m → I s → wp m (λ _ s', I s') s.
Proof. intros Hm Hs. by apply Hm. Qed.

Lemma wp_run_command h cmd (Q : result (option string) → S → Prop) s :
  Q (Ok (command_output h cmd)) s → wp (run_command h cmd) Q s.
Proof. unfold wp. by rewrite run_command_eq. Qed.

Lemma wp_py_int str (Q : result Z → S → Prop) s :
  match Str.parse_int str with
  | Some z => Q (Ok z) s
  | None => Q (Raise (invalid_literal str)) s
  end →
  wp (py_int str) Q s.
Proof. unfold wp, py_int. by destruct (Str.parse_int str). Qed.

Lemma wp_index {A} (l : list A) i (Q : result A → S → Prop) s :
  match l !! i with
  | Some x => Q (Ok x) s
  | None => Q (Raise (Exn IndexError "list index out of range")) s
  end →
  wp (index l i) Q s.
Proof. unfold wp, index. by destruct (l !! i). Qed.

Lemma wp_index_last {A} (l : list A) (Q : result A → S → Prop) s :
  match last l with
  | Some x => Q (Ok x) s
  | None => Q (Raise (Exn IndexError "list index out of range")) s
  end →
  wp (index_last l) Q s.
Proof. unfold wp, index_last. by destruct (last l). Qed.

Lemma wp_if_truthy o (k : string → M S unit) (Q : result unit → S → Prop) s :
  match o with
  | Some str => if Str.is_empty str then Q (Ok tt) s else wp (k str) Q s
  | None => Q (Ok tt) s
  end →
  wp (if_truthy o k) Q s.
Proof. destruct o as [str|]; simpl; [|done]. by destruct (Str.is_empty str). Qed.

Lemma wp_check h op (Q : result unit → S → Prop) s :
  match fault h op with
  | Some e => Q (Raise e) s
  | None => Q (Ok tt) s
  end →
  wp (check h op) Q s.
Proof. unfold wp, check. by destruct (fault h op). Qed.
End Wp.

Lemma wp_setitem {V} k (v : V) (Q : result unit → list (string * V) → Prop) d :
  Q (Ok tt) (dict_set k v d) → wp (setitem k v) Q d.
Proof. done. Qed.

(** The dictionary that [returning] returns satisfies what the body
    establishes when it does not raise. *)
Lemma returning_wp {V} (P : list (string * V) → Prop) init body d :
  wp body (λ r d', is_ok r = true → P d') init →
  returning init body = Ok d → P d.
Proof.
  unfold wp, returning. destruct (body init) as [[[]|e] d']; simpl; [|done].
  intros H [= <-]. by apply H.
Qed.

(** ** The loop over [/proc/cpuinfo] *)

Lemma wp_scan_cpuinfo lines stop (Q : result unit → dict → Prop) d :
  match model_line lines with
  | Some line =>
      match Str.split ":" line !! 1%nat with
      | Some field => Q (Ok tt) (dict_set "model" (VStr (Str.strip field)) d)
      | None => Q (Raise (Exn IndexError "list index out of range")) d
      end
  | None =>
      match stop with
      | Some e => Q (Raise e) d
      | None => Q (Ok tt) d
      end
  end →
  wp (scan_cpuinfo lines stop) Q d.
Proof.
  unfold model_line. induction lines as [|line lines IH]; simpl.
  - by destruct stop.
  - destruct (Str.startswith line "model name"); [|done].
    intros H. apply wp_bind, wp_index.
    by destruct (Str.split ":" line !! 1%nat).
Qed.




(** ** Rules for the primitives of the world *)

Lemma wp_py_div {S} a b (Q : result Q → S → Prop) s :
  (if Qeq_bool b 0
   then Q (Raise (Exn ZeroDivisionError "float division by zero")) s
   else Q (Ok (a / b)%Q) s) →
  wp (py_div a b) Q s.
Proof. unfold wp, py_div. by destruct (Qeq_bool b 0). Qed.

Lemma wp_py_items {S} v (Q : result dict → S → Prop) s :
  match v with
  | VDict d => Q (Ok d) s
  | _ => Q (Raise (Exn AttributeError "object has no attribute 'items'")) s
  end →
  wp (py_items v) Q s.
Proof. by destruct v. Qed.

Lemma wp_on_fst {S T A} (m : M S A) (Q : result A → S * T → Prop) st :
  wp m (λ r s', Q r (s', st.2)) st.1 → wp (on_fst m) Q st.
Proof. unfold wp, on_fst. by destruct (m st.1). Qed.

Lemma wp_on_snd {S T A} (m : M T A) (Q : result A → S * T → Prop) st :
  wp m (λ r t', Q r (st.1, t')) st.2 → wp (on_snd m) Q st.
Proof. unfold wp, on_snd. by destruct (m st.2). Qed.

Lemma wp_time_now h (Q : result Q → World → Prop) w :
  Q (Ok (time_time h (clock_reads w))) (tick w) → wp (time_now h) Q w.
Proof. done. Qed.

Lemma wp_now h (Q : result datetime → World → Prop) w :
  Q (Ok (datetime_now h (clock_reads w))) (tick w) → wp (now h) Q w.
Proof. done. Qed.

Lemma wp_open_read h op name (Q : result unit → World → Prop) w :
  match fault h op with
  | Some e => Q (Raise e) w
  | None =>
      match files w !! name with
      | Some _ => Q (Ok tt) w
      | None => Q (Raise (Exn FileNotFoundError "[Errno 2] No such file or directory")) w
      end
  end →
  wp (open_read h op name) Q w.
Proof.
  unfold wp, open_read, bind, check. destruct (fault h op); simpl; [done|].
  by destruct (files w !! name).
Qed.

Lemma wp_os_remove h name (Q : result unit → World → Prop) w :
  match fault h RemoveProbe with
  | Some e => Q (Raise e) w
  | None =>
      match files w !! name with
      | Some _ => Q (Ok tt) (set_files (delete name) w)
      | None => Q (Raise (Exn FileNotFoundError "[Errno 2] No such file or directory")) w
      end
  end →
  wp (os_remove h name) Q w.
Proof.
  unfold wp, os_remove, bind, check. destruct (fault h RemoveProbe); simpl; [done|].
  by destruct (files w !! name).
Qed.

Lemma wp_get_io_performance h (Q : result dict → World → Prop) w :
  wp (try_except (io_probe h) is_Exception
        (λ e, on_snd (setitem "error" (VStr (exn_msg e)))))
     (λ r st, Q (match r with Ok _ => Ok st.2 | Raise e => Raise e end) st.1)
     (w, []) →
  wp (get_io_performance h) Q w.
Proof.
  unfold wp, get_io_performance.
  by destruct (try_except _ _ _ _) as [r [w' info]].
Qed.

(** ** Printing leaves the files alone *)

Lemma prints_only_print line : prints_only (print line).
Proof. done. Qed.

Lemma prints_only_bind {A B} (m : M World A) (k : A → M World B) :
  prints_only m → (∀ a, prints_only (k a)) → prints_only (bind m k).
Proof.
  intros Hm Hk w. unfold bind. destruct (Hm w) as (Hr & Hf & Hc).
  destruct (m w) as [[a|e] w1]; simpl in *; [|done].
  destruct (Hk a w1) as (Hr' & Hf' & Hc'). repeat split; congruence.
Qed.

Lemma prints_only_for_each {A} (P : A → Prop) (l : list A) (f : A → M World unit) :
  (∀ x, P x → prints_only (f x)) → Forall P l → prints_only (for_each l f).
Proof.
  intros Hf. induction 1 as [|x l Hx Hl IH]; simpl; [done|].
  apply prints_only_bind; [by apply Hf|by intros _].
Qed.

Lemma prints_only_print_items indent d : prints_only (print_items indent d).
Proof.
  apply (prints_only_for_each (λ _, True)); [|by apply Forall_true].
  intros [key value] _. apply prints_only_print.
Qed.

(** After a step that only prints, the proof goes on with the same
    files and clock. *)
Lemma wp_prints_only {A} (m : M World A) (Q : result A → World → Prop) w :
  prints_only m →
  (∀ a w', files w' = files w → clock_reads w' = clock_reads w → Q (Ok a) w') →
  wp m Q w.
Proof.
  intros Hm HQ. destruct (Hm w) as (Hr & Hf & Hc). unfold wp.
  destruct (m w) as [[a|e] w']; simpl in *; [by apply HQ|done].
Qed.

Lemma wp_result {S A} (m : M S A) (Q : result A → S → Prop) s :
  (∀ r s', m s = (r, s') → Q r s') → wp m Q s.
Proof. intros H. unfold wp. destruct (m s) as [r s'] eqn:E. by apply H. Qed.
(** One step of a computation, backwards from the postcondition. *)
Ltac wp_step :=
  lazymatch goal with
  | |- wp (bind _ _) _ _ => apply wp_bind
  | |- wp (ret _) _ _ => apply wp_ret
  | |- wp (raise _) _ _ => apply wp_raise
  | |- wp (lift _) _ _ => apply wp_lift
  | |- wp (setitem _ _) _ _ => apply wp_setitem
  | |- wp (modify _) _ _ => apply wp_modify
  | |- wp (try_except _ _ _) _ _ => apply wp_try_except
  | |- wp (run_command _ _) _ _ => apply wp_run_command
  | |- wp (py_int _) _ _ => apply wp_py_int
  | |- wp (index _ _) _ _ => apply wp_index
  | |- wp (index_last _) _ _ => apply wp_index_last
  | |- wp (if_truthy _ _) _ _ => apply wp_if_truthy
  | |- wp (check _ _) _ _ => apply wp_check
  | |- wp (scan_cpuinfo _ _) _ _ => apply wp_scan_cpuinfo
  | |- wp (py_div _ _) _ _ => apply wp_py_div
  | |- wp (py_items _) _ _ => apply wp_py_items
  | |- wp (on_fst _) _ _ => apply wp_on_fst
  | |- wp (on_snd _) _ _ => apply wp_on_snd
  | |- wp (time_now _) _ _ => apply wp_time_now
  | |- wp (now _) _ _ => apply wp_now
  | |- wp (open_read _ _ _) _ _ => apply wp_open_read
  | |- wp (os_remove _ _) _ _ => apply wp_os_remove
  | |- wp (get_io_performance _) _ _ => apply wp_get_io_performance
  | |- wp (print _) _ _ => apply wp_modify
  | |- wp (open_write _ _ _) _ _ => unfold open_write
  | |- wp (os_urandom _ _) _ _ => unfold os_urandom
  | |- wp (file_write _ _ _) _ _ => unfold file_write
  | |- wp (json_dump _ _ _) _ _ => unfold json_dump
  | |- @wp ?S _ (statvfs_getattr ?st ?n) _ _ =>
      let r := eval cbv beta iota delta
                 [statvfs_getattr String.eqb Ascii.eqb Bool.eqb] in
               (@statvfs_getattr S st n) in
      change (@statvfs_getattr S st n) with r
  | |- wp (let _ := _ in _) _ _ => cbv zeta
  | |- wp (for_each [] _) _ _ => cbn [for_each]
  | |- wp (for_each (_ :: _) _) _ _ => cbn [for_each]
  | |- wp (match ?x with _ => _ end) _ _ => destruct x eqn:?
  | |- wp (if ?b then _ else _) _ _ => destruct b eqn:?
  | |- match ?x with _ => _ end =>
      lazymatch x with
      | Ok _ => fail
      | Raise _ => fail
      | Some _ => fail
      | None => fail
      | true => fail
      | false => fail
      | _ => destruct x eqn:?
      end
  end; cbn beta iota delta [is_Exception fst snd].

Ltac wp_run := repeat wp_step.

(** A goal about the dictionary that a probe returns becomes a goal
    about its body. *)
Ltac by_returning H d :=
  pattern d; refine (returning_wp _ _ _ _ _ H); clear H d.

(** A computation that always ends with the same result and state. *)
Lemma wp_eq {S A} (m : M S A) (r0 : result A) (s0 s : S) :
  wp m (λ r s', r = r0 ∧ s' = s0) s → m s = (r0, s0).
Proof. unfold wp. destruct (m s) as [r s']. simpl. by intros [-> ->]. Qed.

Lemma preserves_wp {S A} (I : S → Prop) (m : M S A) :
  (∀ s, I s → wp m (λ _ s', I s') s) → preserves I m.
Proof. done. Qed.

(** One step of the proof that a computation keeps an invariant. *)
Ltac pres_step :=
  lazymatch goal with
  | |- preserves _ (bind _ _) => apply preserves_bind; [|intros ?]
  | |- preserves _ (try_except _ _ _) => apply preserves_try_except; [|intros ?]
  | |- preserves _ (if_truthy _ _) => apply preserves_if_truthy; intros ?
  | |- preserves _ (for_each _ _) => apply preserves_for_each; intros ?
  | |- preserves _ (run_command _ _) => apply preserves_stateless, stateless_run_command
  | |- preserves _ (ret _) => apply preserves_stateless, stateless_ret
  | |- preserves _ (raise _) => apply preserves_stateless, stateless_raise
  | |- preserves _ (lift _) => apply preserves_stateless, stateless_lift
  | |- preserves _ (index _ _) => apply preserves_stateless, stateless_index
  | |- preserves _ (index_last _) => apply preserves_stateless, stateless_index_last
  | |- preserves _ (py_int _) => apply preserves_stateless, stateless_py_int
  | |- preserves _ (py_div _ _) => apply preserves_stateless, stateless_py_div
  | |- preserves _ (statvfs_getattr _ _) =>
      apply preserves_stateless, stateless_statvfs_getattr
  | |- preserves _ (check _ _) => apply preserves_stateless, stateless_check
  | |- preserves (Forall _) (setitem _ _) => apply preserves_setitem
  | |- preserves (λ d, dict_has _ d = true) (setitem _ _) => apply preserves_setitem_has
  | |- preserves (λ d, dict_get _ d = Some _) (setitem _ _) =>
      apply preserves_setitem_get
  | |- preserves _ (let _ := _ in _) => cbv zeta
  | |- preserves _ (if ?b then _ else _) => destruct b
  | |- preserves _ (match ?x with _ => _ end) => destruct x
  end.

(** ** Fields and flatness *)

Lemma field_of_all fields (d : dict) :
  Forall (field_of fields) d → keys_within fields d = true ∧ flat d = true.
Proof.
  unfold keys_within, flat, dict_keys.
  induction 1 as [|[k v] d [Hk Hv] Hd [IHk IHv]]; [done|].
  split; apply andb_true_intro; done.
Qed.

Lemma keys_within_has {V} fields (d : list (string * V)) k :
  keys_within fields d = true → dict_has k d = true → Str.mem k fields = true.
Proof.
  unfold keys_within, dict_has, dict_keys.
  induction d as [|[k' v] d IH]; simpl; [done|].
  intros [Hk Hd]%andb_prop. destruct (String.eqb k' k) eqn:E; [|by apply IH].
  by apply String.eqb_eq in E as ->.
Qed.

Lemma flat_get (d : dict) k v :
  flat d = true → dict_get k d = Some v → scalar v = true.
Proof.
  unfold flat. induction d as [|[k' v'] d IH]; simpl; [done|].
  intros [Hv Hd]%andb_prop. destruct (String.eqb k' k); [|by apply IH].
  by intros [= <-].
Qed.

(** ** [get_cpu_info] *)

Lemma preserves_scan_cpuinfo (P : string * pyval → Prop) lines stop :
  (∀ x, P ("model", VStr x)) → preserves (Forall P) (scan_cpuinfo lines stop).
Proof.
  intros HP. induction lines as [|line lines IH]; simpl; repeat pres_step; done.
Qed.

Lemma get_cpu_info_fields (h : Host) (info : dict) :
  get_cpu_info h = Ok info → keys_within cpu_fields info = true ∧ flat info = true.
Proof.
  intros H. apply field_of_all. revert H. apply returning_preserves.
  - repeat constructor. simpl. by destruct (os_cpu_count h).
  - repeat pres_step; try done. by apply preserves_scan_cpuinfo.
Qed.

(** C9: the mapping that [get_cpu_info] returns has the keys
    [processor], [architecture] and [python_cpu_count] whatever the
    operating system, and has [performance_cores] exactly when it has
    [efficiency_cores]. *)
Theorem get_cpu_info_keys (h : Host) (info : dict) :
  get_cpu_info h = Ok info →
  dict_has "processor" info = true ∧
  dict_has "architecture" info = true ∧
  dict_has "python_cpu_count" info = true ∧
  dict_has "performance_cores" info = dict_has "efficiency_cores" info.
Proof.
  intros H. by_returning H info.
  wp_run; intros; done.
Qed.

Lemma get_cpu_info_keys_witness :
  get_cpu_info macos_host = Ok macos_cpu_info ∧
  dict_has "processor" macos_cpu_info = true ∧
  dict_has "architecture" macos_cpu_info = true ∧
  dict_has "python_cpu_count" macos_cpu_info = true ∧
  dict_has "performance_cores" macos_cpu_info = dict_has "efficiency_cores" macos_cpu_info.
Proof.
  split; [reflexivity|].
  apply (get_cpu_info_keys macos_host). reflexivity.
Defined.

(** Every field of the mapping has its source. *)
Lemma Forall_keys {V} (P : string → Prop) (d : list (string * V)) k :
  Forall (λ kv, P kv.1) d → dict_has k d = true → P k.
Proof.
  unfold dict_has. intros H. destruct (dict_get k d) as [v|] eqn:E; [|done].
  intros _. by apply (dict_get_Forall _ _ _ _ H) in E.
Qed.


(** ** [get_memory_info] *)

Lemma get_memory_info_fields (h : Host) (info : dict) :
  get_memory_info h = Ok info →
  keys_within memory_fields info = true ∧ flat info = true.
Proof.
  intros H. apply field_of_all. revert H. apply returning_preserves.
  - constructor.
  - repeat pres_step; done.
Qed.

(** ** [get_filesystem_info] *)

(** The disk usage is never recorded: the attribute [f_available] does
    not exist, the [AttributeError] is caught and [fs_info] stays as it
    was. *)
Lemma disk_usage_noop (h : Host) (path : pathlike) (d : dict) :
  disk_usage h path d = (Ok tt, d).
Proof. apply wp_eq. unfold disk_usage. wp_run; done. Qed.

Lemma stateless_disk_usage h path : stateless (disk_usage h path).
Proof. intros d. by rewrite disk_usage_noop. Qed.

Lemma preserves_fs_entry_body (I : dict → Prop) h path :
  (∀ v d, I d → I (dict_set "type" v d)) →
  (∀ v d, I d → I (dict_set "mount_type" v d)) →
  preserves I
    (bind (if String.eqb (platform_system h) "Darwin" then darwin_fs_type h path
           else if String.eqb (platform_system h) "Linux" then linux_fs_type h path
           else ret tt)
          (λ _, disk_usage h path)).
Proof.
  intros Ht Hm. unfold darwin_fs_type, linux_fs_type.
  repeat pres_step;
    first [ by apply preserves_modify; auto
          | apply preserves_stateless, stateless_disk_usage ].
Qed.

Lemma fs_entry_spec (h : Host) (path : pathlike) (d : dict) :
  fs_entry h path = Ok d →
  dict_get "path" d = Some (VStr (path_str path)) ∧
  keys_within filesystem_fields d = true ∧ flat d = true.
Proof.
  intros H. split.
  - revert H. apply (returning_preserves (λ d, dict_get "path" d = Some _)); [done|].
    apply preserves_fs_entry_body; intros v d' Hd; by rewrite dict_get_set_ne.
  - apply field_of_all. revert H. apply returning_preserves.
    + by repeat constructor.
    + unfold darwin_fs_type, linux_fs_type. repeat pres_step;
        first [ done | apply preserves_stateless, stateless_disk_usage ].
Qed.

Lemma fs_entry_sources (h : Host) (path : pathlike) (d : dict) (field : string) :
  fs_entry h path = Ok d → dict_has field d = true →
  filesystem_obtained h (path_str path) field = true.
Proof.
  intros H. apply (Forall_keys (λ k, filesystem_obtained h (path_str path) k = true)).
  revert H. apply returning_preserves; [by repeat constructor|].
  apply preserves_bind; [|intros _; apply preserves_stateless, stateless_disk_usage].
  apply preserves_wp. intros d0 Hd0.
  unfold darwin_fs_type, linux_fs_type.
  wp_run; repeat apply Forall_dict_set; try done.
  all: unfold filesystem_obtained, truthy; simpl;
    repeat match goal with H : _ = _ |- _ => rewrite H end; done.
Qed.


Lemma fs_entry_ok_intro (h : Host) name path d :
  Str.mem name filesystem_names = true →
  checked_path h name = Some (path_str path) →
  negb (os_path_exists h (path_str path)) = false →
  fs_entry h path = Ok d →
  fs_entry_ok h (name, VDict d).
Proof.
  intros Hname Hpath Hex%negb_false_iff Hd.
  destruct (fs_entry_spec _ _ _ Hd) as (Hp & Hk & Hf).
  split; [done|]. exists (path_str path), d. split_and!; try done.
  intros field. by apply fs_entry_sources.
Qed.

Lemma get_filesystem_info_spec (h : Host) (info : dict) :
  get_filesystem_info h = Ok info → Forall (fs_entry_ok h) info.
Proof.
  intros H. by_returning H info.
  wp_run; try done; intros _.
  all: repeat apply Forall_dict_set; try apply Forall_nil_2.
  all: eapply fs_entry_ok_intro; only 4: eassumption; [reflexivity| |eassumption].
  all: unfold checked_path; simpl;
    repeat match goal with H : _ = Ok _ |- _ => rewrite H end; done.
Qed.

(** C10: the keys of the mapping that [get_filesystem_info] returns are
    among [current_dir], [home] and [tmp]; a key is there only when the
    path checked under it exists on the host; and every value is a
    mapping with a [path] entry. *)
Theorem get_filesystem_info_keys (h : Host) (info : dict) :
  get_filesystem_info h = Ok info →
  keys_within filesystem_names info = true ∧
  (∀ name, dict_has name info = true →
     ∃ p, checked_path h name = Some p ∧ os_path_exists h p = true) ∧
  (∀ name v, dict_get name info = Some v →
     ∃ d, v = VDict d ∧ dict_has "path" d = true).
Proof.
  intros H%get_filesystem_info_spec. split; [|split].
  - unfold keys_within, dict_keys.
    induction H as [|[k v] d [Hk _] Hd IH]; [done|].
    by apply andb_true_intro.
  - intros name. unfold dict_has. destruct (dict_get name info) as [v|] eqn:E; [|done].
    intros _. apply (dict_get_Forall _ _ _ _ H) in E as (_ & p & d & Hp & Hex & _).
    by exists p.
  - intros name v E.
    apply (dict_get_Forall _ _ _ _ H) in E as (_ & p & d & _ & _ & Hv & Hp & _).
    simpl in Hv, Hp. exists d. split; [done|]. unfold dict_has. by rewrite Hp.
Qed.

Lemma get_filesystem_info_keys_witness :
  get_filesystem_info windows_host = Ok windows_filesystem_info ∧
  keys_within filesystem_names windows_filesystem_info = true ∧
  (∀ name, dict_has name windows_filesystem_info = true →
     ∃ p, checked_path windows_host name = Some p ∧
          os_path_exists windows_host p = true) ∧
  (∀ name v, dict_get name windows_filesystem_info = Some v →
     ∃ d, v = VDict d ∧ dict_has "path" d = true).
Proof.
  split; [reflexivity|].
  apply (get_filesystem_info_keys windows_host). reflexivity.
Defined.

(** The sections of the filesystem mapping are flat, with the fields
    [path], [type] and [mount_type] only. *)
Lemma get_filesystem_info_sections (h : Host) (info : dict) :
  get_filesystem_info h = Ok info →
  flat_sections info = true ∧
  (∀ name v, dict_get name info = Some v →
     ∃ d, v = VDict d ∧ keys_within filesystem_fields d = true).
Proof.
  intros H%get_filesystem_info_spec. split.
  - unfold flat_sections.
    induction H as [|[k v] d (_ & p & e & _ & _ & Hv & _ & _ & Hf & _) Hd IH]; [done|].
    simpl in *. subst v. by apply andb_true_intro.
  - intros name v E.
    apply (dict_get_Forall _ _ _ _ H) in E as (_ & p & d & _ & _ & Hv & _ & Hk & _).
    by exists d.
Qed.

(** ** [get_io_performance] *)

(** The function is its [try] block followed, when the block raised, by
    the handler that records the message. *)
Lemma get_io_performance_eq (h : Host) (w : World) :
  get_io_performance h w =
  match io_probe h (w, []) with
  | (Ok _, (w', info)) => (Ok info, w')
  | (Raise e, (w', info)) => (Ok (dict_set "error" (VStr (exn_msg e)) info), w')
  end.
Proof.
  unfold get_io_performance, try_except.
  by destruct (io_probe h (w, [])) as [[[]|e] [w' info]].
Qed.

Lemma get_io_performance_returns (h : Host) (w : World) :
  ∃ info w', get_io_performance h w = (Ok info, w').
Proof.
  rewrite get_io_performance_eq.
  destruct (io_probe h (w, [])) as [[[]|e] [w' info]]; by eexists _, _.
Qed.

(** The [try] block writes the two speeds and nothing else. *)
Lemma io_probe_fields (h : Host) (w : World) :
  wp (io_probe h) (λ _ st, Forall (field_of io_fields) st.2) (w, []).
Proof.
  unfold io_probe, write_test, read_test.
  wp_run; repeat apply Forall_dict_set; done.
Qed.


(** The [error] field is there exactly when the [try] block raised, and
    then it holds the message of the exception. *)
Lemma get_io_performance_error (h : Host) (w w' : World) (info : dict) :
  get_io_performance h w = (Ok info, w') →
  match (io_probe h (w, [])).1 with
  | Ok _ => dict_get "error" info = None
  | Raise e => dict_get "error" info = Some (VStr (exn_msg e))
  end.
Proof.
  rewrite get_io_performance_eq. pose proof (io_probe_fields h w) as H.
  unfold wp in H. destruct (io_probe h (w, [])) as [[[]|e] [w1 d]]; simpl in *.
  all: intros [= <- <-].
  - destruct (dict_get "error" d) as [v|] eqn:E; [|done].
    by apply (dict_get_Forall _ _ _ _ H) in E as [? _].
  - apply dict_get_set_eq.
Qed.

(** When the [try] block completes, the probe file is gone; when it
    raises after the file was opened for writing, the file stays. *)
Lemma io_probe_cleanup (h : Host) (w : World) :
  wp (io_probe h)
     (λ r st,
        match r with
        | Ok _ => files st.1 !! test_file = None
        | Raise _ =>
            fault h OpenProbeWrite = None → is_Some (files st.1 !! test_file)
        end)
     (w, []).
Proof.
  unfold io_probe, write_test, read_test.
  wp_run; simpl in *; simplify_map_eq; try done; by eauto.
Qed.

(** ** The sources of the other sections *)




Lemma test_size_mb_100 : (test_size_mb == 100)%Q.
Proof. reflexivity. Qed.



(** ** [main] *)

(** The loop that prints the filesystem sections returns when every
    value of the mapping is itself a mapping. *)
Lemma prints_only_sections (fs_info : dict) :
  Forall (λ kv, ∃ d, kv.2 = VDict d) fs_info →
  prints_only (for_each fs_info (λ '(name, details),
    print [Lit "  "; Lit name; Lit ":"] ;;
    items <- py_items details ;;
    print_items "    " items)).
Proof.
  apply prints_only_for_each. intros [name details] [d Hd]. simpl in Hd. subst.
  apply prints_only_bind; [apply prints_only_print|intros _].
  apply (prints_only_bind (ret d)); [done|intros items].
  apply prints_only_print_items.
Qed.

Lemma get_filesystem_info_dicts (h : Host) (info : dict) :
  get_filesystem_info h = Ok info → Forall (λ kv, ∃ d, kv.2 = VDict d) info.
Proof.
  intros H%get_filesystem_info_spec. eapply Forall_impl; [done|].
  intros kv (_ & p & d & _ & _ & Hv & _). by exists d.
Qed.

(** One step through [main]: the probes are taken as they are, the
    loops that print are stepped over. *)
Ltac main_step :=
  first
    [ lazymatch goal with
      | |- wp (get_io_performance ?h) _ ?w =>
          apply wp_result;
          let r := fresh "r" in
          intros r ? ?;
          let H := fresh "Hio" in
          destruct (get_io_performance_returns h w) as (? & ? & H);
          destruct r; [clear H|congruence]
      | |- wp (print_items _ _) _ _ =>
          apply wp_prints_only; [apply prints_only_print_items|intros [] ? ? ?]
      | |- wp (for_each _ _) _ _ =>
          apply wp_prints_only;
          [by eapply prints_only_sections, get_filesystem_info_dicts|intros [] ? ? ?]
      end
    | wp_step ];
  cbn [files clock_reads printed tick set_files] in *.

(** What a run of [main] comes to: it raises what a probe or the
    writing of the output raises, and otherwise returns with the record
    in the output file. *)
Lemma main_outcome (h : Host) (w : World) :
  wp (main h)
     (λ r w',
        match r with
        | Ok _ =>
            ∃ cpu mem fs io w1 w2 t out,
              get_cpu_info h = Ok cpu ∧ get_memory_info h = Ok mem ∧
              get_filesystem_info h = Ok fs ∧
              get_io_performance h w1 = (Ok io, w2) ∧
              fault h OpenOutput = None ∧ fault h DumpOutput = None ∧
              files w' = <[out := Json (all_info_of h t cpu mem fs io)]> (files w2)
        | Raise e =>
            get_cpu_info h = Raise e ∨ get_memory_info h = Raise e ∨
            get_filesystem_info h = Raise e ∨
            fault h OpenOutput = Some e ∨ fault h DumpOutput = Some e
        end)
     w.
Proof.
  unfold main. repeat main_step; try by eauto 6.
  eexists _, _, _, _, _, _, _, _. split_and!; [done..|].
  rewrite insert_insert_eq. by f_equal.
Qed.

(** ** Which probes can raise *)

Lemma split_from_cons sep tok s : ∃ x l, Str.split_from sep tok s = x :: l.
Proof.
  revert tok. induction s as [|c r IH]; intros tok; simpl; [by eexists _, _|].
  destruct (Ascii.eqb c sep); [by eexists _, _|apply IH].
Qed.

Lemma split_from_second sep tok s :
  Str.contains (String sep EmptyString) s = true →
  is_Some (Str.split_from sep tok s !! 1%nat).
Proof.
  revert tok. induction s as [|c r IH]; intros tok; simpl; [done|].
  destruct (Ascii.eqb_spec c sep) as [->|Hne].
  - intros _. destruct (split_from_cons sep "" r) as (x & l & ->). by eexists.
  - destruct (ascii_dec sep c) as [->|_]; [done|]. simpl. apply IH.
Qed.

Lemma snoc_not_empty tok c : Str.is_empty (Str.snoc tok c) = false.
Proof. by destruct tok. Qed.

Lemma split_ws_from_cons tok s :
  Str.is_empty tok = false → Str.split_ws_from tok s ≠ [].
Proof.
  revert tok. induction s as [|c r IH]; intros tok Htok; simpl.
  - by rewrite Htok.
  - destruct (Str.is_space c); [by rewrite Htok|].
    apply IH, snoc_not_empty.
Qed.

Lemma lstrip_head s :
  match Str.lstrip s with
  | EmptyString => True
  | String c _ => Str.is_space c = false
  end.
Proof.
  induction s as [|c r IH]; simpl; [done|].
  by destruct (Str.is_space c) eqn:E; [|simpl; rewrite E].
Qed.

Lemma strip_head s :
  match Str.strip s with
  | EmptyString => True
  | String c _ => Str.is_space c = false
  end.
Proof.
  unfold Str.strip. pose proof (lstrip_head s) as H.
  destruct (Str.lstrip s) as [|c r]; simpl; [done|]. by rewrite H.
Qed.

(** A stripped text that is not empty has a last word. *)
Lemma split_ws_strip_last s :
  Str.is_empty (Str.strip s) = false → is_Some (last (Str.split_ws (Str.strip s))).
Proof.
  pose proof (strip_head s) as H. destruct (Str.strip s) as [|c r]; [done|].
  intros _. unfold Str.split_ws. simpl. rewrite H.
  pose proof (split_ws_from_cons (Str.snoc "" c) r (snoc_not_empty _ _)) as Hne.
  destruct (last _) eqn:E; [by eexists|]. by apply last_None in E.
Qed.

Lemma command_output_stripped h cmd s :
  command_output h cmd = Some s → ∃ x, s = Str.strip x.
Proof.
  unfold command_output. destruct (subprocess_run h cmd) as [p|e]; [|done].
  destruct (returncode p =? 0); [|done]. intros [= <-]. by eexists.
Qed.

(** The dictionary of one path is built without an exception, whatever
    the commands answer. *)
Lemma fs_entry_returns (h : Host) (path : pathlike) :
  ∃ d, fs_entry h path = Ok d.
Proof.
  unfold fs_entry, returning.
  match goal with |- context [?body ?init] =>
    lazymatch type of body with M _ _ =>
      assert (wp body (λ r _, is_ok r = true) init) as Hwp end end.
  { apply wp_bind.
    apply (wp_mono _ (λ r _, is_ok r = true)).
    - unfold darwin_fs_type, linux_fs_type. wp_run; try done; exfalso.
      all: match goal with
        | H : Str.split ?c ?x !! 0%nat = None |- _ =>
            unfold Str.split in H;
            destruct (split_from_cons c "" x) as (? & ? & Hy);
            by rewrite Hy in H
        | H1 : Str.contains _ ?x = true, H2 : Str.split _ ?x !! 1%nat = None |- _ =>
            apply (split_from_second _ "") in H1 as [? ?];
            unfold Str.split in *; congruence
        | H1 : command_output _ _ = Some ?s, H2 : Str.is_empty ?s = false,
          H3 : last (Str.split_ws ?s) = None |- _ =>
            apply command_output_stripped in H1 as [? ->];
            apply split_ws_strip_last in H2 as [? ?]; congruence
        end.
    - intros [[]|e] d Hd; [|done].
      unfold wp. by rewrite disk_usage_noop. }
  unfold wp in Hwp.
  match type of Hwp with is_ok (?x).1 = true => destruct x as [[[]|e] d] end; [|done].
  by eexists.
Qed.

Lemma returning_is_ok {V} (P : bool → Prop) (init : list (string * V)) body :
  wp body (λ r _, P (is_ok r)) init → P (is_ok (returning init body)).
Proof. unfold wp, returning. by destruct (body init) as [[[]|e] d]. Qed.

Ltac by_answers :=
  simpl;
  repeat match goal with H : _ = _ |- _ => rewrite H end;
  simpl; try done.

Lemma get_cpu_info_returns_iff (h : Host) :
  is_ok (get_cpu_info h) = cpu_info_returns h.
Proof.
  apply (returning_is_ok (λ b, b = cpu_info_returns h)).
  wp_run; unfold cpu_info_returns, truthy, parses, is_some; by_answers.
Qed.

Lemma get_memory_info_returns_iff (h : Host) :
  is_ok (get_memory_info h) = memory_info_returns h.
Proof.
  apply (returning_is_ok (λ b, b = memory_info_returns h)).
  wp_run; unfold memory_info_returns, truthy, parses, is_some; by_answers.
Qed.

Lemma get_filesystem_info_returns_iff (h : Host) :
  is_ok (get_filesystem_info h) = filesystem_info_returns h.
Proof.
  apply (returning_is_ok (λ b, b = filesystem_info_returns h)).
  wp_run; unfold filesystem_info_returns; by_answers.
  all: match goal with H : fs_entry ?h ?p = Raise _ |- _ =>
         destruct (fs_entry_returns h p); congruence end.
Qed.

(** [main] returns exactly when the CPU, memory and filesystem probes
    return and the output can be written. *)
Lemma main_returns_iff (h : Host) (w : World) :
  is_ok (main h w).1 = main_returns h.
Proof.
  pose proof (main_outcome h w) as Hm. unfold wp in Hm. unfold main_returns.
  rewrite <- get_cpu_info_returns_iff, <- get_memory_info_returns_iff,
    <- get_filesystem_info_returns_iff.
  unfold no_fault.
  destruct (main h w).1 as [[]|e]; simpl.
  - destruct Hm as (cpu & mem & fs & io & w1 & w2 & t & out
                    & -> & -> & -> & _ & -> & -> & _).
    done.
  - destruct Hm as [->|[->|[->|[->| ->]]]]; simpl;
      by rewrite ?andb_false_r.
Qed.

(** * The claims about failures *)

(** The probe file after [get_io_performance]: gone when no [error] was
    recorded, still there when an error was recorded after the file had
    been opened for writing. *)
Lemma get_io_performance_cleanup (h : Host) (w w' : World) (info : dict) :
  get_io_performance h w = (Ok info, w') →
  (dict_get "error" info = None → files w' !! test_file = None) ∧
  (is_some (dict_get "error" info) = true → fault h OpenProbeWrite = None →
   is_Some (files w' !! test_file)).
Proof.
  intros H. pose proof (get_io_performance_error _ _ _ _ H) as He.
  revert H. rewrite get_io_performance_eq.
  pose proof (io_probe_cleanup h w) as Hc. unfold wp in Hc.
  destruct (io_probe h (w, [])) as [[[]|e] [w1 d]]; simpl in *.
  all: intros [= <- <-]; split; try done.
  - by rewrite He.
  - by rewrite He.
Qed.

(** C1 (the code falls short of it): on a machine whose disk fills up
    during the write test, [get_io_performance] returns with the probe
    file [io_test_tmp.bin] still in the current directory, holding the
    20 MB that were written; the cleanup is skipped by the exception. *)
Theorem io_probe_file_left_behind :
  ∃ w',
    get_io_performance disk_full_host fresh_world =
      (Ok [ ("error", VStr "[Errno 28] No space left on device") ], w') ∧
    files w' !! test_file = Some (Bytes 20971520).
Proof.
  exists (get_io_performance disk_full_host fresh_world).2.
  split; vm_compute; reflexivity.
Qed.





(** C3 (the code falls short of it): on a Mac where [sysctl] prints a
    word for the number of performance cores, [int] raises a
    [ValueError] that nothing catches: [main] ends with it, before any
    file is written, although writing the output would not have failed. *)
Theorem main_fatal_on_odd_sysctl :
  ∃ w',
    main odd_sysctl_host fresh_world =
      (Raise (Exn ValueError "invalid literal for int() with base 10: 'unknown'"), w') ∧
    files w' = ∅ ∧
    fault odd_sysctl_host OpenOutput = None ∧
    fault odd_sysctl_host DumpOutput = None.
Proof.
  exists (main odd_sysctl_host fresh_world).2.
  split_and!; vm_compute; reflexivity.
Qed.

(** The same with a malformed answer about [/proc/meminfo]: the
    [IndexError] is raised inside the handler of the [ImportError] and
    ends [main]. *)
Lemma main_fatal_on_bare_meminfo :
  ∃ w',
    main bare_meminfo_host fresh_world =
      (Raise (Exn IndexError "list index out of range"), w') ∧
    files w' = ∅ ∧
    fault bare_meminfo_host OpenOutput = None ∧
    fault bare_meminfo_host DumpOutput = None.
Proof.
  exists (main bare_meminfo_host fresh_world).2.
  split_and!; vm_compute; reflexivity.
Qed.

(** What ends [main] is an exception of the CPU, memory or filesystem
    probe, or of the writing of the output; the I/O probe never does. *)
Lemma main_raises_only (h : Host) (w w' : World) (e : exn) :
  main h w = (Raise e, w') →
  get_cpu_info h = Raise e ∨ get_memory_info h = Raise e ∨
  get_filesystem_info h = Raise e ∨
  fault h OpenOutput = Some e ∨ fault h DumpOutput = Some e.
Proof.
  intros H. pose proof (main_outcome h w) as Hm. unfold wp in Hm.
  by rewrite H in Hm.
Qed.

(** * The claims about the report *)










(** * Further properties of the probes *)

(** X1: no entry of the filesystem mapping ever has the disk usage: the
    fields [total_gb], [free_gb] and [used_percent] are missing also when
    [os.statvfs] succeeds, because the block reads an attribute that the
    result does not have and its handler swallows the error. *)
Theorem fs_entries_without_disk_usage (h : Host) (info : dict) :
  get_filesystem_info h = Ok info →
  ∀ name section, dict_get name info = Some section →
    ∃ d, section = VDict d ∧ dict_has "total_gb" d = false ∧
         dict_has "free_gb" d = false ∧ dict_has "used_percent" d = false.
Proof.
  intros H name section E.
  destruct (get_filesystem_info_sections _ _ H) as [_ Hk].
  destruct (Hk _ _ E) as (d & -> & Hd). exists d. split; [done|].
  split_and!; (destruct (dict_has _ d) eqn:Hhas; [|done]);
    by apply (keys_within_has _ _ _ Hd) in Hhas.
Qed.

Lemma fs_entries_without_disk_usage_witness :
  get_filesystem_info linux_host = Ok linux_filesystem_info ∧
  os_statvfs linux_host "/tmp" = Ok example_statvfs ∧
  ∀ name section, dict_get name linux_filesystem_info = Some section →
    ∃ d, section = VDict d ∧ dict_has "total_gb" d = false ∧
         dict_has "free_gb" d = false ∧ dict_has "used_percent" d = false.
Proof.
  split; [reflexivity|]. split; [reflexivity|].
  apply (fs_entries_without_disk_usage linux_host). reflexivity.
Defined.

(** The [try] block of the I/O probe changes no file but its own. *)
Lemma io_probe_frame (h : Host) (w : World) :
  wp (io_probe h)
     (λ _ st, ∀ name, name ≠ test_file → files st.1 !! name = files w !! name)
     (w, []).
Proof.
  unfold io_probe, write_test, read_test.
  wp_run; simpl; intros name Hne; by simplify_map_eq.
Qed.

(** X2: [get_io_performance] never raises, whatever fails underneath,
    and it leaves every file of the directory other than
    [io_test_tmp.bin] as it was. *)
Theorem io_probe_touches_only_its_file (h : Host) (w : World) :
  ∃ info w',
    get_io_performance h w = (Ok info, w') ∧
    ∀ name, name ≠ test_file → files w' !! name = files w !! name.
Proof.
  rewrite get_io_performance_eq. pose proof (io_probe_frame h w) as H.
  unfold wp in H.
  destruct (io_probe h (w, [])) as [[[]|e] [w' info]]; by eexists _, _.
Qed.

(** X3: once the probe file could be opened for writing, it is gone
    after [get_io_performance] exactly when no [error] was recorded; a
    file of that name that was there before the probe is deleted too. *)
Theorem io_probe_file_gone_iff_no_error (h : Host) (w w' : World) (info : dict) :
  fault h OpenProbeWrite = None →
  get_io_performance h w = (Ok info, w') →
  (files w' !! test_file = None ↔ dict_get "error" info = None).
Proof.
  intros Hopen H. destruct (get_io_performance_cleanup _ _ _ _ H) as [Hgone Hleft].
  split; [|done].
  intros Hnone. destruct (dict_get "error" info) eqn:E; [|done].
  destruct (Hleft eq_refl Hopen) as [c Hc]. congruence.
Qed.

Lemma io_probe_file_gone_iff_no_error_witness :
  let w := set_files (insert test_file (Bytes 7)) fresh_world in
  files w !! test_file = Some (Bytes 7) ∧
  files (get_io_performance linux_host w).2 !! test_file = None.
Proof.
  intros w. split; [reflexivity|].
  apply (io_probe_file_gone_iff_no_error linux_host w _
           [ ("write_speed_mb_s", VFloat 400); ("read_speed_mb_s", VFloat 400) ]).
  - reflexivity.
  - vm_compute. reflexivity.
  - reflexivity.
Defined.

(** The keys that the [try] block has written when it ends. *)
Lemma io_probe_keys (h : Host) (w : World) :
  wp (io_probe h)
     (λ r st,
        match r with
        | Ok _ => dict_keys st.2 = [ "write_speed_mb_s"; "read_speed_mb_s" ]
        | Raise _ =>
            dict_keys st.2 = [] ∨ dict_keys st.2 = [ "write_speed_mb_s" ] ∨
            dict_keys st.2 = [ "write_speed_mb_s"; "read_speed_mb_s" ]
        end)
     (w, []).
Proof.
  unfold io_probe, write_test, read_test.
  wp_run; simpl; auto.
Qed.

(** X4: the section of the I/O probe has one of four shapes: the two
    speeds; the error alone; the write speed and the error; both speeds
    and the error (when only the cleanup failed).  It has the two speeds
    and nothing else exactly when no error was recorded, and never a
    read speed without a write speed. *)
Theorem io_section_shapes (h : Host) (w w' : World) (info : dict) :
  get_io_performance h w = (Ok info, w') →
  dict_keys info ∈ io_key_lists ∧
  (dict_get "error" info = None ↔
   dict_keys info = [ "write_speed_mb_s"; "read_speed_mb_s" ]) ∧
  (dict_has "read_speed_mb_s" info = true → dict_has "write_speed_mb_s" info = true).
Proof.
  rewrite get_io_performance_eq. pose proof (io_probe_keys h w) as H.
  unfold wp in H. destruct (io_probe h (w, [])) as [[[]|e] [w1 d]]; simpl in H.
  all: intros [= <- <-].
  - destruct d as [|[k1 v1] [|[k2 v2] [|]]]; simplify_eq/=.
    split_and!; [set_solver|done|done].
  - destruct H as [H|[H|H]].
    + destruct d; simplify_eq/=. split_and!; [set_solver|done|done].
    + destruct d as [|[k1 v1] [|]]; simplify_eq/=. split_and!; [set_solver|done|done].
    + destruct d as [|[k1 v1] [|[k2 v2] [|]]]; simplify_eq/=.
      split_and!; [set_solver|done|done].
Qed.

Lemma io_section_shapes_witness :
  dict_keys [ ("error", VStr "[Errno 28] No space left on device") ] ∈ io_key_lists.
Proof.
  pose proof (io_section_shapes disk_full_host fresh_world
                (get_io_performance disk_full_host fresh_world).2
                [ ("error", VStr "[Errno 28] No space left on device") ]) as H.
  apply H. vm_compute. reflexivity.
Defined.

(** * Which exception ends what *)

Lemma returning_cases {V} (A : Prop) (B : exn → Prop)
    (init : list (string * V)) body :
  wp body (λ r _, match r with Ok _ => A | Raise e => B e end) init →
  match returning init body with Ok _ => A | Raise e => B e end.
Proof. unfold wp, returning. by destruct (body init) as [[[]|e] d]. Qed.



Lemma filesystem_info_exception_spec (h : Host) :
  match get_filesystem_info h with
  | Ok _ => filesystem_info_exception h = None
  | Raise e => filesystem_info_exception h = Some e
  end.
Proof.
  apply returning_cases.
  wp_run; unfold filesystem_info_exception; by_answers.
  all: match goal with H : fs_entry ?h ?p = Raise _ |- _ =>
         destruct (fs_entry_returns h p); congruence end.
Qed.




(** X8: [get_filesystem_info] raises exactly what [os.getcwd()] or
    [Path.home()] raises; no answer of [df], [mount] or [stat] and no
    failure of [os.statvfs] makes it raise. *)
Theorem get_filesystem_info_raises (h : Host) (e : exn) :
  get_filesystem_info h = Raise e ↔ filesystem_info_exception h = Some e.
Proof.
  pose proof (filesystem_info_exception_spec h) as H.
  destruct (get_filesystem_info h) as [info|e']; split; intros; simplify_eq; congruence.
Qed.

(** * Which fields are there *)

(** X9: the keys of the filesystem mapping are exactly the names, among
    [current_dir], [home] and [tmp] and in this order, whose path
    exists: an existing path always gets its entry. *)
Theorem get_filesystem_info_exact_keys (h : Host) (info : dict) :
  get_filesystem_info h = Ok info →
  dict_keys info = List.filter (path_present h) filesystem_names.
Proof.
  intros H. by_returning H info.
  wp_run; try done; intros _.
  all: repeat match goal with
         | H : negb _ = true |- _ => apply negb_true_iff in H; simpl in H
         | H : negb _ = false |- _ => apply negb_false_iff in H; simpl in H
         end.
  all: unfold path_present, checked_path; by_answers.
Qed.

Lemma get_filesystem_info_exact_keys_witness :
  get_filesystem_info windows_host = Ok windows_filesystem_info ∧
  dict_keys windows_filesystem_info = [ "current_dir"; "home" ].
Proof.
  split; [reflexivity|].
  apply (get_filesystem_info_exact_keys windows_host). reflexivity.
Defined.

Lemma keys_within_lacks {V} fields (d : list (string * V)) k :
  keys_within fields d = true → Str.mem k fields = false → dict_has k d = false.
Proof.
  intros Hk Hm. destruct (dict_has k d) eqn:E; [|done].
  apply (keys_within_has _ _ _ Hk) in E. congruence.
Qed.

(** The platform, once a test of it succeeded. *)
Ltac know_platform :=
  repeat match goal with
         | H : String.eqb (platform_system ?h) _ = true |- _ =>
             let E := fresh "E" in
             pose proof (proj1 (String.eqb_eq _ _) H) as E; clear H;
             rewrite ?E in *
         end.

(** One of the names of a list of string literals. *)
Ltac one_of Hm :=
  simpl in Hm;
  repeat match type of Hm with
         | (_ || _) = true => apply orb_prop in Hm as [Hm|Hm]
         end;
  try discriminate Hm; apply String.eqb_eq in Hm; subst.

(** X10: when [get_cpu_info] returns, a field is in the mapping exactly
    when it is one of its six fields and the host gave what the field is
    made from: the three base fields always, [model] when the brand
    string or a [model name] line with a colon was read, the two core
    counts when both were printed. *)
Theorem get_cpu_info_field_iff (h : Host) (info : dict) (field : string) :
  get_cpu_info h = Ok info →
  dict_has field info = Str.mem field cpu_fields && cpu_obtained h field.
Proof.
  intros H. destruct (Str.mem field cpu_fields) eqn:Hm.
  - one_of Hm; by_returning H info.
    all: wp_run; try done; intros _.
    all: know_platform; unfold cpu_obtained, truthy, is_some; by_answers.
  - destruct (get_cpu_info_fields _ _ H) as [Hk _].
    by apply (keys_within_lacks cpu_fields).
Qed.

Lemma get_cpu_info_field_iff_witness :
  get_cpu_info macos_host = Ok macos_cpu_info ∧
  dict_has "efficiency_cores" macos_cpu_info =
    Str.mem "efficiency_cores" cpu_fields &&
    cpu_obtained macos_host "efficiency_cores".
Proof.
  split; [reflexivity|].
  apply (get_cpu_info_field_iff macos_host). reflexivity.
Defined.

(** X11: when [get_memory_info] returns, all three fields are there if
    [psutil] answered; without [psutil] only [total_gb] can be there,
    exactly when the fallback command of the platform printed something;
    on any other platform the mapping is empty. *)
Theorem get_memory_info_field_iff (h : Host) (info : dict) (field : string) :
  get_memory_info h = Ok info →
  dict_has field info = Str.mem field memory_fields && memory_obtained h field.
Proof.
  intros H. destruct (Str.mem field memory_fields) eqn:Hm.
  - one_of Hm; by_returning H info.
    all: wp_run; try done; intros _.
    all: know_platform; unfold memory_obtained, truthy; by_answers.
  - destruct (get_memory_info_fields _ _ H) as [Hk _].
    by apply (keys_within_lacks memory_fields).
Qed.

Lemma get_memory_info_field_iff_witness :
  get_memory_info windows_host = Ok [] ∧
  dict_has "total_gb" ([] : dict) =
    Str.mem "total_gb" memory_fields && memory_obtained windows_host "total_gb".
Proof.
  split; [reflexivity|].
  apply (get_memory_info_field_iff windows_host). reflexivity.
Defined.

(** * What the fields hold *)

Lemma returning_eq {V} (init D : list (string * V)) body :
  wp body (λ r d, r = Ok tt ∧ d = D) init → returning init body = Ok D.
Proof.
  unfold wp, returning. destruct (body init) as [[[]|e] d]; simpl; [|by intros [? _]].
  by intros [_ ->].
Qed.

(** X12: on Linux [get_cpu_info] always returns: the three base
    entries, and as [model] the stripped text between the first and the
    second colon of the first line of [/proc/cpuinfo] that starts with
    [model name].  Later lines are not read; an unreadable file, a read
    error and a [model name] line without a colon leave the model out
    without an error. *)
Theorem get_cpu_info_linux (h : Host) :
  platform_system h = "Linux" → get_cpu_info h = Ok (linux_cpu_info h).
Proof.
  intros Hs. unfold get_cpu_info. rewrite Hs. simpl.
  apply returning_eq. wp_run; unfold linux_cpu_info, cpu_base_info; by_answers.
Qed.

Lemma get_cpu_info_linux_witness :
  get_cpu_info linux_host =
  Ok [ ("processor", VStr "Unknown"); ("architecture", VStr "x86_64");
       ("python_cpu_count", VInt 8);
       ("model", VStr "Intel(R) Core(TM) i7-8650U CPU @ 1.90GHz") ].
Proof. apply (get_cpu_info_linux linux_host). reflexivity. Defined.

Lemma lstrip_fixed t :
  match t with
  | EmptyString => True
  | String c _ => Str.is_space c = false
  end →
  Str.lstrip t = t.
Proof. destruct t as [|c r]; simpl; [done|]. by intros ->. Qed.

Lemma rstrip_idempotent t : Str.rstrip (Str.rstrip t) = Str.rstrip t.
Proof.
  induction t as [|c r IH]; simpl; [done|].
  destruct (Str.is_space c && Str.is_empty (Str.rstrip r)) eqn:E; simpl; [done|].
  by rewrite IH, E.
Qed.

Lemma strip_idempotent s : Str.strip (Str.strip s) = Str.strip s.
Proof.
  unfold Str.strip at 1. rewrite (lstrip_fixed (Str.strip s)) by apply strip_head.
  unfold Str.strip. apply rstrip_idempotent.
Qed.

(** X13: the text that [run_command] returns has no white space at its
    ends: stripping it again changes nothing. *)
Theorem run_command_output_stripped {S} (h : Host) (cmd : string) (s : S) text :
  run_command h cmd s = (Ok (Some text), s) → Str.strip text = text.
Proof.
  rewrite run_command_eq. intros [= H].
  apply command_output_stripped in H as [x ->]. apply strip_idempotent.
Qed.

Lemma run_command_output_stripped_witness :
  Str.strip "MemTotal:       16315752 kB" = "MemTotal:       16315752 kB".
Proof.
  apply (run_command_output_stripped linux_host "grep MemTotal /proc/meminfo" tt).
  reflexivity.
Defined.

(** X14: the field [processor] is never the empty string: an empty
    answer of [platform.processor()] is replaced by [Unknown], and no
    later assignment touches the field. *)
Theorem get_cpu_info_processor (h : Host) (info : dict) :
  get_cpu_info h = Ok info →
  ∃ s, dict_get "processor" info = Some (VStr s) ∧ Str.is_empty s = false ∧
       (s = platform_processor h ∨ platform_processor h = "" ∧ s = "Unknown").
Proof.
  intros H.
  exists (if Str.is_empty (platform_processor h) then "Unknown" else platform_processor h).
  split.
  - by_returning H info. wp_run; by intros _.
  - destruct (platform_processor h) as [|c r]; simpl; auto.
Qed.

Lemma get_cpu_info_processor_witness :
  ∃ s, dict_get "processor" (linux_cpu_info linux_host) = Some (VStr s) ∧
       Str.is_empty s = false ∧
       (s = platform_processor linux_host ∨
        platform_processor linux_host = "" ∧ s = "Unknown").
Proof. apply (get_cpu_info_processor linux_host). reflexivity. Defined.

(** Every entry of the filesystem mapping is the dictionary built for
    the path checked under its name. *)
Lemma get_filesystem_info_entries (h : Host) (info : dict) :
  get_filesystem_info h = Ok info →
  Forall (λ kv, ∃ path d, checked_path h kv.1 = Some (path_str path) ∧
                           kv.2 = VDict d ∧ fs_entry h path = Ok d) info.
Proof.
  intros H. by_returning H info.
  wp_run; try done; intros _.
  all: repeat apply Forall_dict_set; try apply Forall_nil_2.
  all: eexists _, _; split_and!; [|done|eassumption].
  all: unfold checked_path; by_answers.
Qed.

Lemma fs_entry_mount_type (h : Host) (path : pathlike) (d : dict) :
  fs_entry h path = Ok d → dict_has "mount_type" d = true →
  platform_system h = "Darwin" ∧ dict_has "type" d = true.
Proof.
  intros H. by_returning H d.
  apply wp_bind.
  apply (wp_mono _ (λ _ d', dict_has "mount_type" d' = true →
                            platform_system h = "Darwin" ∧ dict_has "type" d' = true)).
  - unfold darwin_fs_type, linux_fs_type.
    wp_run; simpl; try done; intros _; split; try done; by apply String.eqb_eq.
  - intros [[]|e] d' Hd'; [|done].
    unfold wp. by rewrite disk_usage_noop.
Qed.

(** X15: an entry of the filesystem mapping has the field [mount_type]
    only on macOS and only together with the field [type]. *)
Theorem mount_type_only_with_type (h : Host) (info : dict) :
  get_filesystem_info h = Ok info →
  ∀ name d, dict_get name info = Some (VDict d) →
    dict_has "mount_type" d = true →
    platform_system h = "Darwin" ∧ dict_has "type" d = true.
Proof.
  intros H%get_filesystem_info_entries name d E.
  apply (dict_get_Forall _ _ _ _ H) in E as (path & d' & _ & [= <-] & Hd).
  by apply (fs_entry_mount_type h path).
Qed.

Lemma mount_type_only_with_type_witness :
  dict_has "mount_type"
    [ ("path", VStr "/tmp"); ("type", VStr "APFS (SSD)"); ("mount_type", VStr "local") ]
    = true ∧
  platform_system macos_host = "Darwin".
Proof.
  split; [reflexivity|].
  refine (proj1 (mount_type_only_with_type macos_host _ eq_refl "tmp" _ eq_refl eq_refl)).
Defined.

Lemma fs_entry_linux (h : Host) (path : pathlike) :
  platform_system h = "Linux" →
  fs_entry h path = Ok (linux_fs_entry h (path_str path)).
Proof.
  intros Hs. unfold fs_entry. rewrite Hs. simpl.
  apply returning_eq. apply wp_bind.
  apply (wp_mono _ (λ r d, r = Ok tt ∧ d = linux_fs_entry h (path_str path))).
  - unfold linux_fs_type. wp_run; unfold linux_fs_entry; by_answers.
  - intros r d [-> ->]. unfold wp. by rewrite disk_usage_noop.
Qed.

(** X16: on Linux every entry of the filesystem mapping is the path
    and, when [stat] printed something, the type: the name of the table
    for ext4, xfs, btrfs, nfs, tmpfs and zfs, the printed text itself for
    any other type; there is nothing else in the entry. *)
Theorem get_filesystem_info_linux (h : Host) (info : dict) :
  platform_system h = "Linux" →
  get_filesystem_info h = Ok info →
  ∀ name section, dict_get name info = Some section →
    ∃ p, checked_path h name = Some p ∧ section = VDict (linux_fs_entry h p).
Proof.
  intros Hs H%get_filesystem_info_entries name section E.
  apply (dict_get_Forall _ _ _ _ H) in E as (path & d & Hp & Hv & Hd).
  simpl in *. exists (path_str path). split; [done|].
  rewrite (fs_entry_linux h path Hs) in Hd. congruence.
Qed.

Lemma get_filesystem_info_linux_witness :
  get_filesystem_info linux_host = Ok linux_filesystem_info ∧
  ∃ p, checked_path linux_host "current_dir" = Some p ∧
       VDict [ ("path", VStr "/home/ada/run"); ("type", VStr "ext2/ext3") ]
       = VDict (linux_fs_entry linux_host p).
Proof.
  split; [reflexivity|].
  apply (get_filesystem_info_linux linux_host linux_filesystem_info eq_refl eq_refl
           "current_dir"). reflexivity.
Defined.

(** * What [main] does to the directory *)

Lemma get_io_performance_frame (h : Host) (w w' : World) r name :
  get_io_performance h w = (r, w') → name ≠ test_file →
  files w' !! name = files w !! name.
Proof.
  rewrite get_io_performance_eq. pose proof (io_probe_frame h w) as H.
  unfold wp in H.
  destruct (io_probe h (w, [])) as [[[]|e] [w1 info]]; intros [= <- <-]; by apply H.
Qed.

Lemma main_disk (h : Host) (w : World) :
  wp (main h)
     (λ r w',
        ∃ n,
          (∀ name, name ≠ test_file → name ≠ output_name h n →
             files w' !! name = files w !! name) ∧
          (r = Ok tt →
             ∃ cpu mem fs io,
               files w' !! output_name h n =
                 Some (Json (all_info_of h (datetime_now h (S n)) cpu mem fs io))))
     w.
Proof.
  unfold main. repeat main_step.
  all: lazymatch goal with
       | |- context [datetime_now _ (clock_reads ?w2)] => exists (clock_reads w2)
       | |- _ => exists 0%nat
       end.
  all: split; [intros name Hn1 Hn2|intros Hr; try done].
  all: unfold output_name in *; rewrite ?lookup_insert_ne by done.
  all: try (repeat first
         [ match goal with
           | H : files ?x = _ |- context [files ?x] => rewrite H
           end
         | erewrite get_io_performance_frame by eassumption; cbn [files] ];
       done).
  eexists _, _, _, _. by rewrite lookup_insert_eq.
Qed.

(** X17: whatever happens, [main] leaves every file of the directory as
    it was, apart from the probe file [io_test_tmp.bin] and from the
    output file. *)
Theorem main_touches_two_files (h : Host) (w : World) :
  ∃ n, ∀ name, name ≠ test_file → name ≠ output_name h n →
    files (main h w).2 !! name = files w !! name.
Proof.
  destruct (main_disk h w) as (n & Hframe & _). by exists n.
Qed.

(** X18: when [main] returns, the output file is named after one
    reading of the clock and the [timestamp] of the record is the next
    reading, so that the two may differ; the record has its six keys in
    the order timestamp, platform, cpu, memory, filesystem,
    io_performance. *)
Theorem main_output_file (h : Host) (w w' : World) :
  main h w = (Ok tt, w') →
  ∃ n d,
    files w' !! output_name h n = Some (Json (VDict d)) ∧
    dict_get "timestamp" d = Some (VStr (isoformat (datetime_now h (S n)))) ∧
    dict_keys d = record_keys.
Proof.
  intros H. destruct (main_disk h w) as (n & _ & Hout).
  rewrite H in Hout. destruct (Hout eq_refl) as (cpu & mem & fs & io & Hf).
  by eexists n, _.
Qed.

Lemma main_output_file_witness :
  ∃ n d,
    files (main linux_host fresh_world).2 !! output_name linux_host n
      = Some (Json (VDict d)) ∧
    dict_get "timestamp" d = Some (VStr (isoformat (datetime_now linux_host (S n)))) ∧
    dict_keys d = record_keys.
Proof.
  apply (main_output_file linux_host fresh_world). vm_compute. reflexivity.
Defined.

(** * Two more edges *)

Lemma fs_entry_mount_type_value (h : Host) (path : pathlike) (d : dict) v :
  fs_entry h path = Ok d → dict_get "mount_type" d = Some v →
  v = VStr "local" ∨ v = VStr "network".
Proof.
  intros H. by_returning H d.
  apply wp_bind.
  apply (wp_mono _ (λ _ d', dict_get "mount_type" d' = Some v →
                            v = VStr "local" ∨ v = VStr "network")).
  - unfold darwin_fs_type, linux_fs_type.
    wp_run; simpl; try done; intros [= <-]; auto.
  - intros [[]|e] d' Hd'; [|done].
    unfold wp. by rewrite disk_usage_noop.
Qed.

(** X19: the field [mount_type] of a filesystem entry holds [local] or
    [network] and nothing else. *)
Theorem mount_type_values (h : Host) (info : dict) :
  get_filesystem_info h = Ok info →
  ∀ name d v, dict_get name info = Some (VDict d) →
    dict_get "mount_type" d = Some v →
    v = VStr "local" ∨ v = VStr "network".
Proof.
  intros H%get_filesystem_info_entries name d v E.
  apply (dict_get_Forall _ _ _ _ H) in E as (path & d' & _ & [= <-] & Hd).
  by apply (fs_entry_mount_type_value h path).
Qed.

Lemma mount_type_values_witness :
  VStr "local" = VStr "local" ∨ VStr "local" = VStr "network".
Proof.
  exact (mount_type_values macos_host _ eq_refl "home" _ _ eq_refl eq_refl).
Defined.

(** X20: when the clock does not advance between the start and the end
    of the write test, the division by the elapsed time raises: the
    section holds the error alone, no speed, and the probe file, fully
    written, stays in the directory. *)
Theorem io_probe_zero_elapsed (h : Host) (w : World) :
  write_test_faultless h = true →
  Qeq_bool (elapsed h (clock_reads w)) 0 = true →
  ∃ info w',
    get_io_performance h w = (Ok info, w') ∧
    dict_keys info = [ "error" ] ∧
    files w' !! test_file = Some (Bytes test_size).
Proof.
  unfold write_test_faultless, no_fault, elapsed. intros Hf Hz.
  repeat (apply andb_prop in Hf as [Hf ?]).
  repeat match goal with
         | H : match fault h ?op with _ => _ end = true |- _ =>
             destruct (fault h op) eqn:?; [discriminate H|clear H]
         end.
  eexists _, _. split.
  - apply wp_eq. wp_step. unfold io_probe, write_test, read_test.
    wp_run; simpl in *; simplify_map_eq; first [congruence | split; reflexivity].
  - simpl. by simplify_map_eq.
Qed.

Lemma io_probe_zero_elapsed_witness :
  write_test_faultless frozen_clock_host = true ∧
  ∃ info w',
    get_io_performance frozen_clock_host fresh_world = (Ok info, w') ∧
    dict_keys info = [ "error" ] ∧
    files w' !! test_file = Some (Bytes test_size).
Proof.
  split; [reflexivity|].
  apply (io_probe_zero_elapsed frozen_clock_host fresh_world); reflexivity.
Defined.
